(** * User resource of the demo REST services

    A shallow embedding of the request handlers of the Flask service
    ([flask_demo/api/routes.py], [flask_demo/models/user.py]) and of the
    Django service ([api/views.py], [api/models.py]), with the properties
    of the User resource contract proved about them.

    Python dictionaries with string keys are finite maps ([gmap string _]);
    the key order of a dict is not observable through the handlers, which
    only test membership, read entries and hand the dict to the JSON
    encoder.  Python strings are carried as Rocq strings (their UTF-8
    bytes): equality, emptiness and the substring relation for ASCII
    needles are the same on both sides. *)

From stdpp Require Import gmap strings list fin_maps sorting pretty.
From Stdlib Require Import ZArith Ascii Floats.SpecFloat.

Set Warnings "-register-all".
#[local] Open Scope Z_scope.

(** ** Python values

    What [request.get_json()] hands to a view when it returns: the decoded
    document ([None] for a JSON null, and in Flask before 2.1 also for a
    request that carries no JSON document).  The [json]
    module decodes objects to [dict], arrays to [list], strings to [str],
    integer literals to [int] (unbounded), other number literals to [float]
    (an IEEE 754 double, here a [spec_float]), [true]/[false] to [bool] and
    [null] to [None]. *)
Inductive value : Type :=
  | VNone
  | VBool (b : bool)
  | VInt (z : Z)
  | VFloat (f : spec_float)
  | VStr (s : string)
  | VList (l : list value)
  | VDict (d : gmap string value).

(** ** The fragment of Python the handlers run on *)
Module Py.

(** The built-in exceptions the handler code can raise. *)
Inductive exn : Type :=
  | TypeError
  | KeyError
  | AttributeError.

(** An expression either evaluates to a result or raises. *)
Inductive outcome (A : Type) : Type :=
  | Return (a : A)
  | Raise (e : exn).
Arguments Return {A} a.
Arguments Raise {A} e.

#[global] Instance outcome_ret : MRet outcome := λ A a, Return a.
#[global] Instance outcome_bind : MBind outcome := λ A B k m,
  match m with
  | Return a => k a
  | Raise e => Raise e
  end.

(** [bool(v)]: [None], [False], zero of either numeric type and the empty
    string, list and dict are false, everything else is true (a NaN
    included). *)
Definition truthy (v : value) : bool :=
  match v with
  | VNone => false
  | VBool b => b
  | VInt z => negb (z =? 0)
  | VFloat (S754_zero _) => false
  | VFloat _ => true
  | VStr s => negb (bool_decide (s = ""))
  | VList l => negb (bool_decide (l = []))
  | VDict d => negb (bool_decide (d = ∅))
  end.

(** [key == v] for a string [key]: only an equal string compares equal. *)
Definition str_eq (key : string) (v : value) : bool :=
  match v with
  | VStr s => bool_decide (key = s)
  | _ => false
  end.

(** [needle in hay] on two strings: [needle] occurs as a substring. *)
Fixpoint str_contains (needle hay : string) : bool :=
  String.prefix needle hay ||
  match hay with
  | EmptyString => false
  | String _ rest => str_contains needle rest
  end.

(** [key in container] for a string [key]: key membership on a dict,
    element membership on a list, substring test on a string; the other
    types are not iterable. *)
Definition contains (key : string) (container : value) : outcome bool :=
  match container with
  | VDict d => Return (bool_decide (is_Some (d !! key)))
  | VList l => Return (existsb (str_eq key) l)
  | VStr s => Return (str_contains key s)
  | VNone | VBool _ | VInt _ | VFloat _ => Raise TypeError
  end.

(** [container[key]] for a string [key]: defined on a dict holding the
    key; a list or string index must be an integer, and the other types
    are not subscriptable. *)
Definition getitem (container : value) (key : string) : outcome value :=
  match container with
  | VDict d =>
      match d !! key with
      | Some v => Return v
      | None => Raise KeyError
      end
  | _ => Raise TypeError
  end.

(** [container.get(key)]: a method of dict only; a missing key gives
    [None]. *)
Definition get (container : value) (key : string) : outcome value :=
  match container with
  | VDict d => Return (default VNone (d !! key))
  | _ => Raise AttributeError
  end.

(** Short-circuit [a or b] on conditions that may raise. *)
Definition or_else (a b : outcome bool) : outcome bool :=
  x ← a; if x : bool then mret true else b.

Definition not_ (a : outcome bool) : outcome bool :=
  x ← a; mret (negb x).

Section Format.
(** [repr] of a float, a list or a dict is the interpreter's business
    (shortest round-trip digits, quoting of nested strings); it is a
    parameter of the development. *)
Variable builtin_repr : value → string.

(** [format(v, "")], what an f-string field [{v}] expands to. *)
Definition format (v : value) : string :=
  match v with
  | VStr s => s
  | VNone => "None"
  | VBool true => "True"
  | VBool false => "False"
  | VInt z => pretty z
  | VFloat _ | VList _ | VDict _ => builtin_repr v
  end.
End Format.

End Py.

Import Py.

(** ** HTTP responses

    What a view returns to its host framework: a status code and the
    document the framework encodes as the JSON body. *)
Record response : Type := Response { data : value; status : Z }.

(** ** The Flask service *)
Module Flask.

(** [flask.jsonify(v)]: a response with [v] as JSON body and the default
    status 200.  Every [value] is a decoded JSON document or built from
    such, so the encoder accepts it. *)
Definition jsonify (v : value) : response :=
  {| data := v; status := 200 |}.

(** A view returning the pair [(response, code)]: Flask sets the status of
    the response to [code]. *)
Definition with_status (r : response) (code : Z) : response :=
  {| data := data r; status := code |}.

(** *** [flask_demo/models/user.py] *)

(** The [User] dataclass.  Its annotations ([str], [str], [Optional[int]])
    are not checked when an instance is built: a field holds whatever value
    the constructor was given, and [age] defaults to [None]. *)
Record User : Type := { name : value; email : value; age : value }.

Definition to_dict (self : User) : gmap string value :=
  {[ "name" := name self; "email" := email self; "age" := age self ]}.

(** *** [flask_demo/api/routes.py] *)

Definition root : response :=
  jsonify (VDict {[ "message" := VStr "Hello, world!" ]}).

(** The first half of [create_user], up to the construction of [user]:
    either the view has already returned (the 400 response) or it goes on
    with the record. *)
Inductive validated : Type :=
  | Rejected (r : response)
  | Accepted (user : User).

Definition validate_and_create (data : value) : outcome validated :=
  missing ← or_else (mret (negb (truthy data)))
              (or_else (not_ (contains "name" data))
                       (not_ (contains "email" data)));
  if missing : bool then
    mret (Rejected
            (with_status
               (jsonify (VDict {[ "error" := VStr "Name and email are required" ]}))
               400))
  else
    n ← getitem data "name";
    e ← getitem data "email";
    a ← get data "age";
    mret (Accepted {| name := n; email := e; age := a |}).

Section Routes.
Variable builtin_repr : value → string.

(** The view for [POST /users], applied to the result of
    [request.get_json()]. *)
Definition create_user (data : value) : outcome response :=
  v ← validate_and_create data;
  match v with
  | Rejected r => mret r
  | Accepted user =>
      mret (with_status
              (jsonify (VDict
                 {[ "message" :=
                      VStr ("User " +:+ format builtin_repr (name user) +:+ " created!");
                    "user" := VDict (to_dict user) ]}))
              201)
  end.
End Routes.

Definition health_check : response :=
  with_status (jsonify (VDict {[ "status" := VStr "healthy" ]})) 200.

End Flask.

(** ** [User] instances as Python objects

    The dataclass of [flask_demo/models/user.py] once more, this time with
    its instances as mutable objects on a heap, so that what a method does
    to them can be stated. *)
Module UserObject.

(** The heap: the instance dictionary of every object alive, by address. *)
Abbreviation heap := (gmap positive (gmap string value)).

(** The attributes held by the class rather than by an instance: the
    dataclass keeps the default of [age] there. *)
Definition class_attributes : gmap string value := {[ "age" := VNone ]}.

(** A computation on the heap: it may read and write objects, and it
    returns or raises. *)
Record Method (A : Type) : Type := MkMethod { call : heap → outcome A * heap }.
Arguments MkMethod {A} call.
Arguments call {A} m h.

#[global] Instance Method_ret : MRet Method := λ A a, MkMethod (λ h, (Return a, h)).
#[global] Instance Method_bind : MBind Method := λ A B k m,
  MkMethod (λ h, match call m h with
                 | (Return a, h') => call (k a) h'
                 | (Raise e, h') => (Raise e, h')
                 end).

(** [self.attr]: the instance dictionary first, then the class. *)
Definition getattr (self : positive) (attr : string) : Method value :=
  MkMethod (λ h,
    (match h !! self with
     | Some instance =>
         match instance !! attr with
         | Some v => Return v
         | None =>
             match class_attributes !! attr with
             | Some v => Return v
             | None => Raise AttributeError
             end
         end
     | None => Raise AttributeError
     end, h)).

(** [self.attr = v] *)
Definition setattr (self : positive) (attr : string) (v : value) : Method unit :=
  MkMethod (λ h, (Return (), alter (insert attr v) self h)).

(** The [__init__] the dataclass decorator generates. *)
Definition __init__ (self : positive) (name email age : value) : Method unit :=
  _ ← setattr self "name" name;
  _ ← setattr self "email" email;
  setattr self "age" age.

(** [User(name, email, age)]: a new object, initialised. *)
Definition User_ (name email age : value) : Method positive :=
  MkMethod (λ h,
    let self := fresh (dom h) in
    call (_ ← __init__ self name email age; mret self) (<[ self := ∅ ]> h)).

(** Lines 12-17. *)
Definition to_dict (self : positive) : Method (gmap string value) :=
  n ← getattr self "name";
  e ← getattr self "email";
  a ← getattr self "age";
  mret {[ "name" := n; "email" := e; "age" := a ]}.

(** The object at [self] is a [User] whose three fields are set, with the
    values of the record [u]. *)
Definition holds (h : heap) (self : positive) (u : Flask.User) : Prop :=
  ∃ instance : gmap string value,
    h !! self = Some instance ∧
    instance !! "name" = Some (Flask.name u) ∧
    instance !! "email" = Some (Flask.email u) ∧
    instance !! "age" = Some (Flask.age u).

End UserObject.

(** ** The Django service *)
Module Django.

(** *** [api/views.py] *)

(** [rest_framework.response.Response(data, status=code)]; the status
    defaults to 200. *)
Definition Response_ (d : value) (code : Z) : response :=
  {| data := d; status := code |}.

Definition HTTP_200_OK : Z := 200.

(** A request, as far as the views and their decorator look at it: its
    method, which Django hands over in upper case, and its headers. *)
Record HttpRequest : Type := {
  method : string;
  headers : gmap string string
}.

(** [str.lower()] on a method name. *)
Definition lower_char (c : ascii) : ascii :=
  let n := N_of_ascii c in
  if ((65 <=? n) && (n <=? 90))%N then ascii_of_N (n + 32) else c.

Fixpoint lower (s : string) : string :=
  match s with
  | EmptyString => EmptyString
  | String c rest => String (lower_char c) (lower rest)
  end.

(** The answer to a method the view does not handle: status 405 with the
    detail [Method "<method>" not allowed.] *)
Definition method_not_allowed (request : HttpRequest) : response :=
  Response_
    (VDict {[ "detail" :=
                VStr ("Method " +:+ String "034"%char (method request)
                      +:+ String "034"%char " not allowed.") ]})
    405.

Section ApiView.
(** What the decorator's class does around the decorated function depends
    on settings that are not part of the sources at hand; it is taken as
    given.  [initial request] is the answer of the checks made before any
    handler is chosen (content negotiation, authentication, permissions,
    throttling) when one of them turns the request down, and [None] when
    they let it pass; [options name request] is the description the class
    answers an OPTIONS request with, for the view called [name]. *)
Variable initial : HttpRequest → option response.
Variable options : string → HttpRequest → response.

(** [@api_view(http_method_names)] around a function called [name]: the
    wrapped view runs the checks, then hands the request to the function
    when its method, in lower case, is one of the declared ones, answers an
    OPTIONS request itself, and answers any other method with 405. *)
Definition api_view (http_method_names : list string) (name : string)
    (func : HttpRequest → response) (request : HttpRequest) : response :=
  match initial request with
  | Some refusal => refusal
  | None =>
      if bool_decide (lower (method request) ∈ lower <$> http_method_names)
      then func request
      else if bool_decide (lower (method request) = "options")
      then options name request
      else method_not_allowed request
  end.

(** Lines 8-11. *)
Definition root : HttpRequest → response :=
  api_view ["GET"] "root"
    (λ request, Response_ (VDict {[ "message" := VStr "Hello, world!" ]}) 200).

(** Lines 14-17. *)
Definition health_check : HttpRequest → response :=
  api_view ["GET"] "health_check"
    (λ request, Response_ (VDict {[ "status" := VStr "healthy" ]}) HTTP_200_OK).
End ApiView.

(** *** [api/models.py] *)

(** The options of a model field that the declarations of [User] use. *)
Inductive field_type : Type :=
  | BigAutoField
  | CharField
  | EmailField
  | IntegerField
  | DateTimeField.

Record Field : Type := {
  type_ : field_type;
  primary_key : bool;
  max_length : option Z;
  unique : bool;
  null : bool;
  blank : bool;
  auto_now_add : bool;
  auto_now : bool
}.

Definition field (ty : field_type) : Field :=
  {| type_ := ty; primary_key := false; max_length := None; unique := false;
     null := false; blank := false; auto_now_add := false; auto_now := false |}.

(** The declared columns of [class User(models.Model)], in declaration
    order, after the [id] column every model without a declared primary key
    gets. *)
Definition fields : list (string * Field) :=
  [ ("id", {| type_ := BigAutoField; primary_key := true; max_length := None;
              unique := true; null := false; blank := true;
              auto_now_add := false; auto_now := false |});
    ("name", {| type_ := CharField; primary_key := false; max_length := Some 100;
                unique := false; null := false; blank := false;
                auto_now_add := false; auto_now := false |});
    ("email", {| type_ := EmailField; primary_key := false; max_length := Some 254;
                 unique := true; null := false; blank := false;
                 auto_now_add := false; auto_now := false |});
    ("age", {| type_ := IntegerField; primary_key := false; max_length := None;
               unique := false; null := true; blank := true;
               auto_now_add := false; auto_now := false |});
    ("created_at", {| type_ := DateTimeField; primary_key := false; max_length := None;
                      unique := false; null := false; blank := true;
                      auto_now_add := true; auto_now := false |});
    ("updated_at", {| type_ := DateTimeField; primary_key := false; max_length := None;
                      unique := false; null := false; blank := true;
                      auto_now_add := false; auto_now := true |}) ].

(** [class Meta: ordering = ['-created_at']] *)
Definition Meta_ordering : list string := ["-created_at"].

(** A saved instance of the model.  Timestamps are instants on the server
    clock, counted in its smallest unit. *)
Record User : Type := {
  id : Z;
  name : string;
  email : string;
  age : option Z;
  created_at : Z;
  updated_at : Z
}.

Definition __str__ (self : User) : string := name self.

(** The value an instance holds in a column, by column name. *)
Definition getattr (self : User) (column : string) : option value :=
  if bool_decide (column = "id") then Some (VInt (id self))
  else if bool_decide (column = "name") then Some (VStr (name self))
  else if bool_decide (column = "email") then Some (VStr (email self))
  else if bool_decide (column = "age") then Some (from_option VInt VNone (age self))
  else if bool_decide (column = "created_at") then Some (VInt (created_at self))
  else if bool_decide (column = "updated_at") then Some (VInt (updated_at self))
  else None.

(** *** The persistence collaborator

    The storage behind [UserViewSet] is not part of the sources at hand
    (the view set names [User.objects.all()] and a serializer module and
    nothing else); its operations are taken from the contract the
    specification gives for it, driven by the declarations of [User]
    above. *)

Inductive error : Type :=
  | UniquenessError
  | NotFoundError.

Inductive result (A : Type) : Type :=
  | Ok (a : A)
  | Err (e : error).
Arguments Ok {A} a.
Arguments Err {A} e.

(** Modelled from the spec: the state of the persistence collaborator, which
    is absent from the sources: the table of saved users, oldest insertion
    first, and the next value of the [id] sequence. *)
Record Table : Type := { rows : list User; next_id : Z }.

Definition empty : Table := {| rows := []; next_id := 1 |}.

(** Modelled from the spec: the uniqueness test of the absent persistence
    collaborator.  Equality of two cells for a unique index: a null equals
    nothing. *)
Definition same_cell (a b : value) : bool :=
  match a, b with
  | VInt x, VInt y => bool_decide (x = y)
  | VStr s, VStr t => bool_decide (s = t)
  | _, _ => false
  end.

(** Modelled from the spec: part of the same uniqueness test; two rows
    collide in a column when both hold an equal, non-null cell there. *)
Definition collides (column : string) (a b : User) : bool :=
  match getattr a column, getattr b column with
  | Some x, Some y => same_cell x y
  | _, _ => false
  end.

(** Modelled from the spec: the condition of the collaborator's
    [UniquenessError], read off the declarations of [fields].  Does [new]
    repeat, in a column declared [unique], the value of a saved row? *)
Definition violates_unique (saved : list User) (new : User) : bool :=
  existsb (λ decl : string * Field,
             unique decl.2 && existsb (collides decl.1 new) saved)
          fields.

(** Modelled from the spec: the persistence collaborator's
    [save(User) → User | UniquenessError], for a record not saved before.
    The storage module itself is absent from the sources; per the contract
    the new record gets the next [id], its [auto_now_add] and [auto_now]
    columns get the current instant [now], and the call fails, leaving the
    table as it was, when a [unique] column would repeat a saved value. *)
Definition save (t : Table) (now : Z) (n e : string) (a : option Z)
    : Table * result User :=
  let new := {| id := next_id t; name := n; email := e; age := a;
                created_at := now; updated_at := now |} in
  if violates_unique (rows t) new then (t, Err UniquenessError)
  else ({| rows := rows t ++ [new]; next_id := next_id t + 1 |}, Ok new).

(** Modelled from the spec: the persistence collaborator's
    [get(id) → User | NotFoundError]; the storage module is absent from the
    sources. *)
Definition get (t : Table) (k : Z) : result User :=
  match find (λ u, bool_decide (id u = k)) (rows t) with
  | Some u => Ok u
  | None => Err NotFoundError
  end.

(** Modelled from the spec: the persistence collaborator's
    [delete(id) → ok | NotFoundError]; the storage module is absent from
    the sources. *)
Definition delete (t : Table) (k : Z) : Table * result unit :=
  match get t k with
  | Ok _ =>
      ({| rows := filter (λ u, id u ≠ k) (rows t); next_id := next_id t |}, Ok ())
  | Err e => (t, Err e)
  end.

(** Modelled from the spec: how the absent persistence collaborator reads
    [Meta.ordering].  One entry is a column name, with a leading ["-"] for
    descending order. *)
Inductive direction : Type :=
  | Ascending
  | Descending.

Definition order_term (s : string) : direction * string :=
  match s with
  | String "-"%char column => (Descending, column)
  | _ => (Ascending, s)
  end.

(** Modelled from the spec: the order the absent collaborator sorts a
    column by: integers and instants by value, strings by their bytes, a
    null before anything else. *)
Definition compare_cells (a b : value) : comparison :=
  match a, b with
  | VInt x, VInt y => x ?= y
  | VStr s, VStr t => String.compare s t
  | VNone, VNone => Eq
  | VNone, _ => Lt
  | _, VNone => Gt
  | _, _ => Eq
  end.

(** Modelled from the spec: the order of two rows under one ordering term
    of the absent collaborator's listing. *)
Definition compare_by (term : direction * string) (a b : User) : comparison :=
  match getattr a term.2, getattr b term.2 with
  | Some x, Some y =>
      match term.1 with
      | Ascending => compare_cells x y
      | Descending => compare_cells y x
      end
  | _, _ => Eq
  end.

(** Modelled from the spec: the order of the absent collaborator's listing,
    lexicographic under a list of ordering terms. *)
Fixpoint compare_rows (terms : list (direction * string)) (a b : User)
    : comparison :=
  match terms with
  | [] => Eq
  | term :: rest =>
      match compare_by term a b with
      | Eq => compare_rows rest a b
      | c => c
      end
  end.

(** Modelled from the spec: [a] may be listed before [b] by the absent
    collaborator's listing. *)
Definition precedes (terms : list (direction * string)) (a b : User) : Prop :=
  compare_rows terms a b ≠ Gt.

#[global] Instance precedes_dec terms a b : Decision (precedes terms a b).
Proof. unfold precedes. apply _. Defined.

(** Modelled from the spec: the persistence collaborator's
    [list() → ordered sequence of User]; the storage module is absent from
    the sources.  It is the query set [User.objects.all()] of the view set:
    every saved row, in the order [Meta.ordering] declares. *)
Definition objects_all (t : Table) : list User :=
  merge_sort (precedes (order_term <$> Meta_ordering)) (rows t).

(** Modelled from the spec: a run of [save] calls on the absent
    collaborator, each with its instant and its field values; calls that
    fail leave the table as it was. *)
Fixpoint save_all (t : Table) (calls : list (Z * string * string * option Z))
    : Table :=
  match calls with
  | [] => t
  | (now, n, e, a) :: rest => save_all (save t now n e a).1 rest
  end.

(** Modelled from the spec: the invariant of the absent collaborator's
    table that [id] is server-assigned: every saved row got its [id] from
    the sequence. *)
Definition ids_issued (t : Table) : Prop :=
  Forall (λ u, id u < next_id t) (rows t).

End Django.


(** ** Configuration of the Flask service: [flask_demo/core/config.py] *)
Module FlaskConfig.

(** [load_dotenv()], with its default [override=False]: the variables of the
    [.env] file are added to the process environment, and a variable the
    process already has keeps its value.  [dotenv] is the parsed file, empty
    when there is none. *)
Definition load_dotenv (dotenv environ : gmap string string)
    : gmap string string :=
  environ ∪ dotenv.

(** [os.getenv(key, default)] *)
Definition getenv (environ : gmap string string) (key fallback : string)
    : string :=
  default fallback (environ !! key).

(** [str.lower()] on the bytes of a string: the letters [A]-[Z] become
    [a]-[z].  Characters outside ASCII, which Python may also change, stay
    as they are here; their lower-case forms are not ASCII letters of
    ["true"], so the comparison below comes out the same. *)
Definition lower_char (c : ascii) : ascii :=
  let n := N_of_ascii c in
  if ((65 <=? n) && (n <=? 90))%N then ascii_of_N (n + 32) else c.

Fixpoint lower (s : string) : string :=
  match s with
  | EmptyString => EmptyString
  | String c rest => String (lower_char c) (lower rest)
  end.

(** The attributes of [class Config], computed once from the environment
    when the module is imported. *)
Record Config : Type := {
  APP_NAME : string;
  DEBUG : bool;
  SECRET_KEY : string
}.

Definition Config_ (environ : gmap string string) : Config :=
  {| APP_NAME := getenv environ "APP_NAME" "Flask Demo";
     DEBUG := bool_decide (lower (getenv environ "DEBUG" "False") = "true");
     SECRET_KEY := getenv environ "SECRET_KEY" "dev-secret-key-change-in-production" |}.

(** The module as a whole: [load_dotenv()] runs, then the class body. *)
Definition import_config (dotenv environ : gmap string string) : Config :=
  Config_ (load_dotenv dotenv environ).

End FlaskConfig.

(** ** The admin registration of the Django service: [api/admin.py] *)
Module DjangoAdmin.

(** The options of [class UserAdmin(admin.ModelAdmin)]. *)
Definition list_display : list string :=
  ["id"; "name"; "email"; "age"; "created_at"].
Definition list_filter : list string := ["created_at"].
Definition search_fields : list string := ["name"; "email"].
Definition readonly_fields : list string := ["created_at"; "updated_at"].

End DjangoAdmin.

(** ** The dashboard: [streamlit_demo/app.py] *)
Module Streamlit.

Inductive error : Type :=
  | ValueError
  | IndexError
  | OverflowError.

Inductive result (A : Type) : Type :=
  | Ok (a : A)
  | Raised (e : error).
Arguments Ok {A} a.
Arguments Raised {A} e.

(** What the script has consumed of its surroundings so far: the number of
    times the clock was read and the number of calls made to the random
    generator. *)
Record World : Type := { reads : nat; draws : nat }.

(** A computation that reads the clock or draws random numbers, and
    returns or raises; an exception ends it where it stands. *)
Record Run (A : Type) : Type := MkRun { run : World → result A * World }.
Arguments MkRun {A} run.
Arguments run {A} r w.

#[global] Instance Run_ret : MRet Run := λ A a, MkRun (λ w, (Ok a, w)).
#[global] Instance Run_bind : MBind Run := λ A B k m,
  MkRun (λ w, match run m w with
              | (Ok a, w') => run (k a) w'
              | (Raised e, w') => (Raised e, w')
              end).

(** An expression that consults neither clock nor generator. *)
Definition evaluate {A} (r : result A) : Run A := MkRun (λ w, (r, w)).

(** A list comprehension [[f(x) for x in xs]], evaluated left to right. *)
Fixpoint comprehension {A B} (f : A → Run B) (xs : list A) : Run (list B) :=
  match xs with
  | [] => mret []
  | x :: rest => y ← f x; ys ← comprehension f rest; mret (y :: ys)
  end.

(** [range(n)]: empty when [n] is not positive. *)
Definition range (n : Z) : list Z := seqZ 0 n.

(** [timedelta(days=x)], in microseconds, the resolution of [datetime]; a
    [timedelta] holds at most 999999999 days either way. *)
Definition timedelta (days : Z) : result Z :=
  if bool_decide (-999999999 ≤ days ≤ 999999999)
  then Ok (days * 86400000000)
  else Raised OverflowError.

(** Instants are counted in microseconds from [datetime.min], the start of
    year 1; [datetime_max] is the last one, at the end of year 9999. *)
Definition datetime_max : Z := 3652059 * 86400000000 - 1.

(** [t - delta] on a [datetime]: the result must be a [datetime]. *)
Definition datetime_sub (t delta : Z) : result Z :=
  if bool_decide (0 ≤ t - delta ≤ datetime_max)
  then Ok (t - delta)
  else Raised OverflowError.

(** [now - timedelta(days=x)] *)
Definition date_at (now x : Z) : result Z :=
  match timedelta x with
  | Ok delta => datetime_sub now delta
  | Raised e => Raised e
  end.

(** The values of a column and of the sums and differences taken of it are
    64-bit signed integers, which wrap around. *)
Definition int64 (z : Z) : Z := (z + 2 ^ 63) `mod` 2 ^ 64 - 2 ^ 63.

(** The frame built at the end of [generate_data]: its four columns, with
    instants in microseconds in [Date]. *)
Record DataFrame : Type := {
  Date : list Z;
  Sales : list Z;
  Revenue : list Z;
  Customers : list Z
}.

Definition columns : list string := ["Date"; "Sales"; "Revenue"; "Customers"].

(** [pd.DataFrame(data)] on a dict of lists: the lists must all have one
    length. *)
Definition DataFrame_ (dates sales revenue customers : list Z)
    : result DataFrame :=
  if bool_decide (length sales = length dates ∧ length revenue = length dates
                  ∧ length customers = length dates)
  then Ok {| Date := dates; Sales := sales; Revenue := revenue;
             Customers := customers |}
  else Raised ValueError.

(** [len(df)] *)
Definition len (df : DataFrame) : Z := Z.of_nat (length (Date df)).

(** [series.iloc[i]]: a negative position counts from the end; a position
    outside the series is an error. *)
Definition iloc (series : list Z) (i : Z) : result Z :=
  let n := Z.of_nat (length series) in
  let k := if bool_decide (i < 0) then n + i else i in
  if bool_decide (0 ≤ k < n)
  then from_option Ok (Raised IndexError) (series !! Z.to_nat k)
  else Raised IndexError.

(** [series.sum()] *)
Definition sum (series : list Z) : Z := int64 (foldr Z.add 0 series).

(** [format(z, ",")]: decimal digits in groups of three, counted from the
    right and separated by commas, after the sign. *)
Fixpoint group3 (rev_digits : list ascii) : list ascii :=
  match rev_digits with
  | a :: b :: c :: ((_ :: _) as rest) => a :: b :: c :: ","%char :: group3 rest
  | _ => rev_digits
  end.

Definition format_grouped (z : Z) : string :=
  (if bool_decide (z < 0) then "-" else "")
  +:+ String.string_of_list_ascii
        (reverse (group3 (reverse (String.list_ascii_of_string (pretty (Z.abs z)))))).

(** The arguments of one [st.metric] call. *)
Record Metric : Type := { label : string; value_ : value; delta : value }.

(** Lines 57-61. *)
Definition sales_metric (df : DataFrame) : result Metric :=
  let total := sum (Sales df) in
  match iloc (Sales df) (-1) with
  | Raised e => Raised e
  | Ok last =>
      match iloc (Sales df) (-2) with
      | Raised e => Raised e
      | Ok before =>
          Ok {| label := "Total Sales";
                value_ := VStr (format_grouped total);
                delta := VStr (pretty (int64 (last - before))) |}
      end
  end.

(** Lines 64-68. *)
Definition revenue_metric (df : DataFrame) : result Metric :=
  let total := sum (Revenue df) in
  match iloc (Revenue df) (-1) with
  | Raised e => Raised e
  | Ok last =>
      match iloc (Revenue df) (-2) with
      | Raised e => Raised e
      | Ok before =>
          Ok {| label := "Total Revenue";
                value_ := VStr ("$" +:+ format_grouped total);
                delta := VStr (pretty (int64 (last - before))) |}
      end
  end.

(** Lines 78-82. *)
Definition data_points_metric (df : DataFrame) : Metric :=
  {| label := "Data Points"; value_ := VInt (len df); delta := VStr "Live" |}.

(** The sidebar widgets: the slider's bounds and start value, and the
    choices of the select box. *)
Definition slider_min : Z := 10.
Definition slider_max : Z := 100.
Definition slider_value : Z := 50.
Definition chart_types : list string := ["Line"; "Bar"; "Scatter"; "Area"].

(** Lines 87-96: the heading and the figure for a chart type. *)
Inductive plot : Type :=
  | px_line
  | px_bar
  | px_scatter
  | px_area.

Record Figure : Type := {
  plot_ : plot;
  x : string;
  y : list string;
  size : option string;
  title : string
}.

Definition subheader (chart_type : string) : string :=
  chart_type +:+ " Chart".

Definition figure (chart_type : string) : Figure :=
  if bool_decide (chart_type = "Line") then
    {| plot_ := px_line; x := "Date"; y := ["Sales"; "Customers"]; size := None;
       title := "Sales and Customers Over Time" |}
  else if bool_decide (chart_type = "Bar") then
    {| plot_ := px_bar; x := "Date"; y := ["Revenue"]; size := None;
       title := "Revenue Over Time" |}
  else if bool_decide (chart_type = "Scatter") then
    {| plot_ := px_scatter; x := "Sales"; y := ["Revenue"];
       size := Some "Customers"; title := "Sales vs Revenue" |}
  else
    {| plot_ := px_area; x := "Date"; y := ["Sales"]; size := None;
       title := "Sales Over Time" |}.

(** The columns of the frame a figure reads. *)
Definition figure_columns (fig : Figure) : list string :=
  x fig :: y fig ++ option_list (size fig).

Section Script.
(** The surroundings of the script: [clock k] is what the [k]-th reading of
    [datetime.now()] returns, in microseconds from [datetime.min], and [generator k a b] what
    the [k]-th call of the random generator returns when that call is
    [random.randint(a, b)]. *)
Variable clock : nat → Z.
Variable generator : nat → Z → Z → Z.

Definition datetime_now : Run Z :=
  MkRun (λ w, (Ok (clock (reads w)),
               {| reads := S (reads w); draws := draws w |})).

Definition randint (a b : Z) : Run Z :=
  MkRun (λ w, (Ok (generator (draws w) a b),
               {| reads := reads w; draws := S (draws w) |})).

(** Lines 37-48, the body of [generate_data]: what runs when the cache of
    line 36 has no frame for the argument. *)
Definition generate_data (n_points : Z) : Run DataFrame :=
  dates ← comprehension
             (λ x, now ← datetime_now;
                   delta ← evaluate (timedelta x);
                   evaluate (datetime_sub now delta))
             (range n_points);
  let dates := reverse dates in
  sales ← comprehension (λ _, randint 100 1000) (range n_points);
  revenue ← comprehension (λ _, randint 5000 20000) (range n_points);
  customers ← comprehension (λ _, randint 10 100) (range n_points);
  evaluate (DataFrame_ dates sales revenue customers).
End Script.

End Streamlit.

(** ** Runs of the persisted variant *)

(** Modelled from the spec: the calls that change the table of the absent
    persistence collaborator, a creation with its instant and field values
    or a deletion by id. *)
Inductive table_call : Type :=
  | CallSave (now : Z) (n e : string) (a : option Z)
  | CallDelete (k : Z).

(** Modelled from the spec: the table after one call to the absent
    collaborator, whether the call succeeded or not. *)
Definition apply_call (t : Django.Table) (c : table_call) : Django.Table :=
  match c with
  | CallSave now n e a => (Django.save t now n e a).1
  | CallDelete k => (Django.delete t k).1
  end.

(** Modelled from the spec: the table the absent collaborator holds after a
    run of calls, starting from the empty one. *)
Definition table_after (calls : list table_call) : Django.Table :=
  foldl apply_call Django.empty calls.

(** ** Inputs of the scenarios *)

Definition ada_input : gmap string value :=
  {[ "name" := VStr "Ada"; "email" := VStr "ada@example.com" ]}.

Definition ada_user : Flask.User :=
  {| Flask.name := VStr "Ada"; Flask.email := VStr "ada@example.com";
     Flask.age := VNone |}.

Definition no_name_input : gmap string value :=
  {[ "email" := VStr "ada@example.com" ]}.

Definition blank_name_input : gmap string value :=
  {[ "name" := VStr ""; "email" := VStr "ada@example.com" ]}.

Definition ada_with_role : gmap string value :=
  <[ "role" := VStr "admin" ]> ada_input.

Definition first_user : Django.User :=
  {| Django.id := 1; Django.name := "Ada"; Django.email := "ada@example.com";
     Django.age := None; Django.created_at := 10; Django.updated_at := 10 |}.

Definition first_saved : Django.Table :=
  {| Django.rows := [first_user]; Django.next_id := 2 |}.

Definition second_user : Django.User :=
  {| Django.id := 2; Django.name := "Bob"; Django.email := "bob@example.com";
     Django.age := Some 3; Django.created_at := 20; Django.updated_at := 20 |}.

Definition two_saved : Django.Table :=
  {| Django.rows := [first_user; second_user]; Django.next_id := 3 |}.

(** A clock that advances seven microseconds between readings and a
    generator that walks through the requested interval, for running the
    dashboard on concrete inputs. *)
Definition sample_clock (k : nat) : Z := 1000000000000 + Z.of_nat k * 7.

Definition sample_generator (k : nat) (a b : Z) : Z :=
  a + (Z.of_nat k * 7919) `mod` (b - a + 1).

Definition fresh_world : Streamlit.World :=
  {| Streamlit.reads := 0; Streamlit.draws := 0 |}.

(** A frame of three rows. *)
Definition sample_frame : Streamlit.DataFrame :=
  {| Streamlit.Date := [1; 2; 3]; Streamlit.Sales := [100; 1000; 150];
     Streamlit.Revenue := [5000; 6000; 7000]; Streamlit.Customers := [10; 20; 30] |}.

(** A text without its thousands separators. *)
Definition strip_commas (s : string) : string :=
  String.string_of_list_ascii
    (filter (λ c, c ≠ ","%char) (String.list_ascii_of_string s)).


Definition post_request : Django.HttpRequest :=
  {| Django.method := "POST"; Django.headers := ∅ |}.

Definition pass_checks (request : Django.HttpRequest) : option response := None.

Definition no_options (name : string) (request : Django.HttpRequest) : response :=
  {| data := VNone; status := 200 |}.

(** The heap after [User("Ada", "ada@example.com")] on an empty one. *)
Definition ada_heap : UserObject.heap :=
  {[ 1%positive := {[ "name" := VStr "Ada"; "email" := VStr "ada@example.com";
                      "age" := VNone ]} ]}.

(** The response of line 19 of [routes.py]. *)
Definition bad_request : response :=
  {| data := VDict {[ "error" := VStr "Name and email are required" ]};
     status := 400 |}.

(** A stand-in for the interpreter's [repr], for running the handlers on
    concrete requests whose name is a string. *)
Definition no_repr (v : value) : string := "".

(** * Properties *)

(** ** The Python fragment *)

Lemma bind_return {A B} (a : A) (k : A → outcome B) :
  (Return a ≫= k) = k a.
Proof. reflexivity. Qed.

Lemma bind_raise {A B} (e : exn) (k : A → outcome B) :
  (Raise e ≫= k) = Raise e.
Proof. reflexivity. Qed.

Lemma contains_dict key (d : gmap string value) :
  contains key (VDict d) = Return (bool_decide (is_Some (d !! key))).
Proof. reflexivity. Qed.

Lemma truthy_dict (d : gmap string value) :
  truthy (VDict d) = false → d = ∅.
Proof.
  cbn. intros H. apply negb_false_iff in H. by apply bool_decide_eq_true in H.
Qed.

(** ** The Flask view on a mapping *)

(** On a dict the first half of the view is decided by the two lookups. *)
Lemma validate_and_create_dict (d : gmap string value) :
  Flask.validate_and_create (VDict d) =
    match d !! "name", d !! "email" with
    | Some n, Some e =>
        Return (Flask.Accepted
                  {| Flask.name := n; Flask.email := e;
                     Flask.age := default VNone (d !! "age") |})
    | _, _ => Return (Flask.Rejected bad_request)
    end.
Proof.
  unfold Flask.validate_and_create, or_else, not_.
  destruct (truthy (VDict d)) eqn:Ht; cbn [negb]; rewrite !bind_return.
  - rewrite !contains_dict, !bind_return. cbn [getitem get].
    destruct (d !! "name") as [n|] eqn:Hn.
    + rewrite bool_decide_eq_true_2 by eauto. cbn [negb]. rewrite !bind_return.
      destruct (d !! "email") as [e|] eqn:He.
      * rewrite bool_decide_eq_true_2 by eauto. reflexivity.
      * rewrite bool_decide_eq_false_2 by (intros [? ?]; congruence). reflexivity.
    + rewrite bool_decide_eq_false_2 by (intros [? ?]; congruence). reflexivity.
  - apply truthy_dict in Ht. subst d. rewrite !lookup_empty. reflexivity.
Qed.

(** Only a dict gets past the check and the three reads: a falsy document
    is rejected, a list or string that happens to contain both words fails
    at [data['name']], and the remaining types fail at [in]. *)
Lemma validate_and_create_accepted_dict (data : value) (u : Flask.User) :
  Flask.validate_and_create data = Return (Flask.Accepted u) →
  ∃ d : gmap string value, data = VDict d.
Proof.
  destruct data as [ | b | z | f | s | l | d ]; [ | | | | | | by eauto ];
    unfold Flask.validate_and_create, or_else, not_; intros H; exfalso.
  - discriminate H.
  - destruct b; discriminate H.
  - cbn in H. destruct (z =? 0); discriminate H.
  - destruct f; discriminate H.
  - destruct (truthy (VStr s)); cbn [negb] in H; rewrite !bind_return in H;
      [ | discriminate H ].
    cbn [contains] in H. rewrite !bind_return in H.
    destruct (str_contains "name" s); cbn [negb] in H;
      rewrite !bind_return in H; [ | discriminate H ].
    destruct (str_contains "email" s); discriminate H.
  - destruct (truthy (VList l)); cbn [negb] in H; rewrite !bind_return in H;
      [ | discriminate H ].
    cbn [contains] in H. rewrite !bind_return in H.
    destruct (existsb (str_eq "name") l); cbn [negb] in H;
      rewrite !bind_return in H; [ | discriminate H ].
    destruct (existsb (str_eq "email") l); discriminate H.
Qed.

Lemma validate_and_create_accepted_inv (data : value) (u : Flask.User) :
  Flask.validate_and_create data = Return (Flask.Accepted u) →
  ∃ d : gmap string value,
    data = VDict d ∧
    d !! "name" = Some (Flask.name u) ∧
    d !! "email" = Some (Flask.email u) ∧
    Flask.age u = default VNone (d !! "age").
Proof.
  intros H. destruct (validate_and_create_accepted_dict _ _ H) as [d ->].
  exists d. split; [ reflexivity | ].
  rewrite validate_and_create_dict in H.
  destruct (d !! "name") as [n|]; [ | discriminate H ].
  destruct (d !! "email") as [e|]; [ | discriminate H ].
  injection H as <-. cbn. auto.
Qed.

Lemma to_dict_lookup (u : Flask.User) (k : string) :
  Flask.to_dict u !! k =
    if decide (k = "name") then Some (Flask.name u)
    else if decide (k = "email") then Some (Flask.email u)
    else if decide (k = "age") then Some (Flask.age u)
    else None.
Proof.
  unfold Flask.to_dict.
  repeat (case_decide; [ subst k; by simplify_map_eq | ]).
  by simplify_map_eq.
Qed.

Lemma to_dict_dom (u : Flask.User) :
  dom (Flask.to_dict u) = ({[ "name"; "email"; "age" ]} : gset string).
Proof. unfold Flask.to_dict. rewrite !dom_insert_L, dom_singleton_L. set_solver. Qed.

Lemma create_user_accepted (builtin_repr : value → string) (data : value)
    (u : Flask.User) :
  Flask.validate_and_create data = Return (Flask.Accepted u) →
  Flask.create_user builtin_repr data =
    Return {| data := VDict
                {[ "message" :=
                     VStr ("User " +:+ format builtin_repr (Flask.name u) +:+ " created!");
                   "user" := VDict (Flask.to_dict u) ]};
              status := 201 |}.
Proof. intros H. unfold Flask.create_user. rewrite H. reflexivity. Qed.

Lemma create_user_rejected (builtin_repr : value → string) (data : value)
    (r : response) :
  Flask.validate_and_create data = Return (Flask.Rejected r) →
  Flask.create_user builtin_repr data = Return r.
Proof. intros H. unfold Flask.create_user. rewrite H. reflexivity. Qed.

(** A null document, or an empty object, is turned down like one with a
    missing field. *)
Example create_user_no_document :
  Flask.create_user no_repr VNone = Return bad_request ∧
  Flask.create_user no_repr (VDict ∅) = Return bad_request.
Proof. split; reflexivity. Qed.

(** A JSON array or string that contains both words gets past the check of
    line 18 and fails at [data['name']]. *)
Example create_user_array_document :
  Flask.create_user no_repr (VList [VStr "name"; VStr "email"]) = Raise TypeError ∧
  Flask.create_user no_repr (VStr "name, email") = Raise TypeError ∧
  Flask.create_user no_repr (VInt 7) = Raise TypeError.
Proof. repeat split; reflexivity. Qed.

(** The name goes into the message as [format] renders it. *)
Example create_user_numeric_name :
  ∃ body,
    Flask.create_user no_repr
      (VDict {[ "name" := VInt (-12); "email" := VStr "x@y.z"; "age" := VInt 0 ]})
    = Return {| data := VDict body; status := 201 |} ∧
    body !! "message" = Some (VStr "User -12 created!").
Proof. eexists. split; [ vm_compute; reflexivity | reflexivity ]. Qed.

(** C1. For every input mapping that lacks the key 'name' or lacks the key
    'email', the creation view fails with the validation error: it answers
    HTTP 400 with the message "Name and email are required", and its first
    half returns before any [User] is constructed. *)
Theorem create_user_missing_required (builtin_repr : value → string)
    (d : gmap string value) :
  d !! "name" = None ∨ d !! "email" = None →
  Flask.create_user builtin_repr (VDict d) = Return bad_request ∧
  status bad_request = 400 ∧
  data bad_request = VDict {[ "error" := VStr "Name and email are required" ]} ∧
  Flask.validate_and_create (VDict d) = Return (Flask.Rejected bad_request) ∧
  ∀ u, Flask.validate_and_create (VDict d) ≠ Return (Flask.Accepted u).
Proof.
  intros Hmiss.
  assert (Hrej : Flask.validate_and_create (VDict d)
                 = Return (Flask.Rejected bad_request)).
  { rewrite validate_and_create_dict.
    destruct Hmiss as [-> | ->]; [ reflexivity | ].
    destruct (d !! "name"); reflexivity. }
  split; [ by apply create_user_rejected | ].
  split; [ reflexivity | ]. split; [ reflexivity | ].
  split; [ exact Hrej | ].
  intros u Hu. rewrite Hrej in Hu. discriminate Hu.
Qed.

Lemma create_user_missing_required_witness :
  (no_name_input !! "name" = None ∨ no_name_input !! "email" = None) ∧
  Flask.create_user no_repr (VDict no_name_input) = Return bad_request.
Proof.
  split.
  - left. reflexivity.
  - apply (create_user_missing_required no_repr no_name_input).
    left. reflexivity.
Defined.

(** C2. For every input mapping containing both keys 'name' and 'email',
    the creation succeeds (a [User] is built and the view answers 201 with
    the serialized record under "user"), the serialized record's "name" and
    "email" are the input's, and an 'age' present in the input is copied
    verbatim into the record. *)
Theorem create_user_copies_fields (builtin_repr : value → string)
    (d : gmap string value) :
  is_Some (d !! "name") → is_Some (d !! "email") →
  ∃ (u : Flask.User) (body : gmap string value),
    Flask.validate_and_create (VDict d) = Return (Flask.Accepted u) ∧
    Flask.create_user builtin_repr (VDict d)
      = Return {| data := VDict body; status := 201 |} ∧
    body !! "user" = Some (VDict (Flask.to_dict u)) ∧
    Flask.to_dict u !! "name" = d !! "name" ∧
    Flask.to_dict u !! "email" = d !! "email" ∧
    ∀ a, d !! "age" = Some a →
         Flask.age u = a ∧ Flask.to_dict u !! "age" = Some a.
Proof.
  intros [n Hn] [e He].
  assert (Hu : Flask.validate_and_create (VDict d)
               = Return (Flask.Accepted
                           {| Flask.name := n; Flask.email := e;
                              Flask.age := default VNone (d !! "age") |})).
  { rewrite validate_and_create_dict, Hn, He. reflexivity. }
  eexists _, _. split; [ exact Hu | ].
  split; [ apply (create_user_accepted _ _ _ Hu) | ].
  split; [ by simplify_map_eq | ].
  rewrite !to_dict_lookup, Hn, He. cbn.
  split; [ reflexivity | ]. split; [ reflexivity | ].
  intros a Ha. rewrite Ha. cbn. auto.
Qed.

Lemma create_user_copies_fields_witness :
  is_Some (ada_input !! "name") ∧ is_Some (ada_input !! "email") ∧
  ∃ u : Flask.User,
    Flask.validate_and_create (VDict ada_input) = Return (Flask.Accepted u) ∧
    Flask.to_dict u !! "name" = ada_input !! "name".
Proof.
  assert (Hn : is_Some (ada_input !! "name")) by (exists (VStr "Ada"); reflexivity).
  assert (He : is_Some (ada_input !! "email"))
    by (exists (VStr "ada@example.com"); reflexivity).
  split; [ exact Hn | ]. split; [ exact He | ].
  destruct (create_user_copies_fields no_repr ada_input Hn He)
    as (u & body & Hu & _ & _ & Hname & _).
  exists u. split; [ exact Hu | exact Hname ].
Defined.

(** C3. For every input mapping on which the creation succeeds and in which
    the key 'age' is absent, the record's age is [None] and the serialized
    record's "age" entry is [None] (JSON null), not the integer 0. *)
Theorem absent_age_serialized_none (d : gmap string value) (u : Flask.User) :
  Flask.validate_and_create (VDict d) = Return (Flask.Accepted u) →
  d !! "age" = None →
  Flask.age u = VNone ∧
  Flask.to_dict u !! "age" = Some VNone ∧
  Flask.to_dict u !! "age" ≠ Some (VInt 0).
Proof.
  intros Hu Hage.
  destruct (validate_and_create_accepted_inv _ _ Hu) as (d' & [= <-] & _ & _ & Ha).
  rewrite Hage in Ha. cbn in Ha.
  rewrite to_dict_lookup, Ha. cbn.
  split; [ reflexivity | ]. split; [ reflexivity | ]. discriminate.
Qed.

Lemma absent_age_serialized_none_witness :
  Flask.validate_and_create (VDict ada_input) = Return (Flask.Accepted ada_user) ∧
  ada_input !! "age" = None ∧
  Flask.to_dict ada_user !! "age" = Some VNone.
Proof.
  assert (Hu : Flask.validate_and_create (VDict ada_input)
               = Return (Flask.Accepted ada_user)) by reflexivity.
  assert (Ha : ada_input !! "age" = None) by reflexivity.
  split; [ exact Hu | ]. split; [ exact Ha | ].
  exact (proj1 (proj2 (absent_age_serialized_none ada_input ada_user Hu Ha))).
Defined.

(** C4, as stated, fails on the scenario input: the creation of Ada
    succeeds, yet the JSON body of the answer is not the serialized record,
    whatever the status: it is an envelope holding a message and, under
    "user", the serialized record. *)
Lemma created_body_is_not_the_record :
  Flask.validate_and_create (VDict ada_input) = Return (Flask.Accepted ada_user) ∧
  (∀ code : Z,
     Flask.create_user no_repr (VDict ada_input)
     ≠ Return {| data := VDict (Flask.to_dict ada_user); status := code |}) ∧
  Flask.create_user no_repr (VDict ada_input)
  = Return {| data := VDict {[ "message" := VStr "User Ada created!";
                               "user" := VDict (Flask.to_dict ada_user) ]};
              status := 201 |}.
Proof.
  split; [ reflexivity | ]. split; [ | reflexivity ].
  intros code H.
  apply (f_equal (λ o : outcome response,
                    match o with
                    | Return {| data := VDict body |} => body !! "message"
                    | _ => None
                    end)) in H.
  vm_compute in H. discriminate H.
Qed.

(** C4, amended. For every successful creation request the view answers
    status 201 with a JSON body of exactly two entries: "message", the text
    "User <name> created!", and "user", the serialized record. On the
    scenario input [{"name": "Ada", "email": "ada@example.com"}] the
    serialized record under "user" is
    [{"name": "Ada", "email": "ada@example.com", "age": null}] and the
    message is "User Ada created!". *)
Theorem create_user_created_response (builtin_repr : value → string) :
  (∀ (data : value) (u : Flask.User),
     Flask.validate_and_create data = Return (Flask.Accepted u) →
     ∃ body : gmap string value,
       Flask.create_user builtin_repr data
         = Return {| data := VDict body; status := 201 |} ∧
       body !! "user" = Some (VDict (Flask.to_dict u)) ∧
       body !! "message"
         = Some (VStr ("User " +:+ format builtin_repr (Flask.name u) +:+ " created!")) ∧
       dom body = {[ "message"; "user" ]}) ∧
  ∃ body : gmap string value,
    Flask.create_user builtin_repr (VDict ada_input)
      = Return {| data := VDict body; status := 201 |} ∧
    body !! "user"
      = Some (VDict {[ "name" := VStr "Ada"; "email" := VStr "ada@example.com";
                       "age" := VNone ]}) ∧
    body !! "message" = Some (VStr "User Ada created!").
Proof.
  split.
  - intros data u Hu. eexists. split; [ apply (create_user_accepted _ _ _ Hu) | ].
    split; [ by simplify_map_eq | ]. split; [ by simplify_map_eq | ].
    rewrite dom_insert_L, dom_singleton_L. reflexivity.
  - eexists. split; [ apply (create_user_accepted _ _ ada_user); reflexivity | ].
    split; reflexivity.
Qed.

Lemma create_user_created_response_witness :
  Flask.validate_and_create (VDict ada_input) = Return (Flask.Accepted ada_user) ∧
  ∃ body : gmap string value,
    Flask.create_user no_repr (VDict ada_input)
      = Return {| data := VDict body; status := 201 |} ∧
    body !! "user" = Some (VDict (Flask.to_dict ada_user)).
Proof.
  assert (Hu : Flask.validate_and_create (VDict ada_input)
               = Return (Flask.Accepted ada_user)) by reflexivity.
  split; [ exact Hu | ].
  destruct (proj1 (create_user_created_response no_repr) (VDict ada_input) ada_user Hu)
    as (body & Hr & Huser & _).
  exists body. split; [ exact Hr | exact Huser ].
Defined.

(** The decorated views leave everything but GET (and OPTIONS) outside:
    once the checks have let a request pass, a POST to the health view is
    answered 405 and the function does not run. *)
Example health_check_post_not_allowed :
  Django.health_check pass_checks no_options post_request
  = {| data := VDict {[ "detail" := VStr ("Method " +:+ String "034"%char "POST"
                                          +:+ String "034"%char " not allowed.") ]};
       status := 405 |}.
Proof. vm_compute. reflexivity. Qed.



(** C6, as stated, fails: a request whose "name" is the empty string is
    accepted, and the record built from it has an empty name. *)
Lemma blank_name_accepted :
  ∃ u : Flask.User,
    Flask.validate_and_create (VDict blank_name_input) = Return (Flask.Accepted u) ∧
    Flask.name u = VStr "" ∧
    ¬ (∃ s : string, Flask.name u = VStr s ∧ (1 ≤ String.length s)%nat).
Proof.
  eexists. split; [ reflexivity | ]. split; [ reflexivity | ].
  cbn. intros (s & [= <-] & Hlen). cbn in Hlen. lia.
Qed.

(** C6, amended. Every [User] produced by the creation has its name and
    email taken from entries present in the input: for every input on which
    the operation succeeds, the input is a mapping that contains 'name' and
    'email', and the record's name and email are the input's values under
    those keys, whatever they are. *)
Theorem accepted_user_has_input_fields (data : value) (u : Flask.User) :
  Flask.validate_and_create data = Return (Flask.Accepted u) →
  ∃ d : gmap string value,
    data = VDict d ∧
    d !! "name" = Some (Flask.name u) ∧
    d !! "email" = Some (Flask.email u).
Proof.
  intros Hu.
  destruct (validate_and_create_accepted_inv _ _ Hu) as (d & -> & Hn & He & _).
  eauto.
Qed.

Lemma accepted_user_has_input_fields_witness :
  Flask.validate_and_create (VDict blank_name_input)
    = Return (Flask.Accepted
                {| Flask.name := VStr ""; Flask.email := VStr "ada@example.com";
                   Flask.age := VNone |}) ∧
  ∃ d : gmap string value,
    VDict blank_name_input = VDict d ∧ d !! "name" = Some (VStr "").
Proof.
  split; [ reflexivity | ].
  destruct (accepted_user_has_input_fields (VDict blank_name_input)
              {| Flask.name := VStr ""; Flask.email := VStr "ada@example.com";
                 Flask.age := VNone |} eq_refl) as (d & Hd & Hn & _).
  exists d. split; [ exact Hd | exact Hn ].
Defined.

Lemma to_dict_fields (u : Flask.User) :
  Flask.to_dict u !! "name" = Some (Flask.name u) ∧
  Flask.to_dict u !! "email" = Some (Flask.email u) ∧
  Flask.to_dict u !! "age" = Some (Flask.age u).
Proof. rewrite !to_dict_lookup. repeat split; reflexivity. Qed.

Lemma call_bind {A B} (m : UserObject.Method A) (k : A → UserObject.Method B)
    (h : UserObject.heap) :
  UserObject.call (m ≫= k) h
  = match UserObject.call m h with
    | (Return a, h') => UserObject.call (k a) h'
    | (Raise e, h') => (Raise e, h')
    end.
Proof. reflexivity. Qed.

(** Reading an attribute leaves the heap as it is, whether the attribute is
    there or not. *)
Lemma getattr_heap (self : positive) (attr : string) (h : UserObject.heap) :
  (UserObject.call (UserObject.getattr self attr) h).2 = h.
Proof. reflexivity. Qed.

Lemma getattr_set (self : positive) (attr : string) (h : UserObject.heap)
    (instance : gmap string value) (v : value) :
  h !! self = Some instance → instance !! attr = Some v →
  UserObject.call (UserObject.getattr self attr) h = (Return v, h).
Proof.
  intros Hself Hattr. unfold UserObject.getattr. cbn [UserObject.call].
  by rewrite Hself, Hattr.
Qed.

(** The method never writes: whatever the object at [self] is, and whether
    the method returns or raises, the heap afterwards is the heap before. *)
Lemma to_dict_heap (self : positive) (h : UserObject.heap) :
  (UserObject.call (UserObject.to_dict self) h).2 = h.
Proof.
  unfold UserObject.to_dict. rewrite !call_bind.
  destruct (UserObject.call (UserObject.getattr self "name") h)
    as [[n | e] h1] eqn:H1;
    pose proof (getattr_heap self "name" h) as E1; rewrite H1 in E1;
    cbn in E1; subst h1; [ | reflexivity ].
  rewrite call_bind.
  destruct (UserObject.call (UserObject.getattr self "email") h)
    as [[m | e] h2] eqn:H2;
    pose proof (getattr_heap self "email" h) as E2; rewrite H2 in E2;
    cbn in E2; subst h2; [ | reflexivity ].
  rewrite call_bind.
  destruct (UserObject.call (UserObject.getattr self "age") h)
    as [[a | e] h3] eqn:H3;
    pose proof (getattr_heap self "age" h) as E3; rewrite H3 in E3;
    cbn in E3; subst h3; reflexivity.
Qed.

(** On an object whose fields are set the method returns the mapping of
    the three fields. *)
Lemma to_dict_holds (h : UserObject.heap) (self : positive) (u : Flask.User) :
  UserObject.holds h self u →
  UserObject.call (UserObject.to_dict self) h = (Return (Flask.to_dict u), h).
Proof.
  intros (instance & Hself & Hn & He & Ha).
  unfold UserObject.to_dict.
  rewrite call_bind, (getattr_set _ _ _ _ _ Hself Hn).
  rewrite call_bind, (getattr_set _ _ _ _ _ Hself He).
  rewrite call_bind, (getattr_set _ _ _ _ _ Hself Ha).
  reflexivity.
Qed.

(** The constructor makes such an object, at an address not in use, and
    leaves the objects already there alone. *)
Lemma User_holds (h : UserObject.heap) (name email age : value) :
  ∃ (self : positive) (h' : UserObject.heap),
    UserObject.call (UserObject.User_ name email age) h = (Return self, h') ∧
    h !! self = None ∧
    UserObject.holds h' self
      {| Flask.name := name; Flask.email := email; Flask.age := age |} ∧
    ∀ other, other ≠ self → h' !! other = h !! other.
Proof.
  set (self := fresh (dom h)).
  assert (Hfresh : h !! self = None).
  { apply not_elem_of_dom. apply is_fresh. }
  exists self,
    (<[ self := {[ "age" := age; "email" := email; "name" := name ]} ]> h).
  split; [ | split; [ exact Hfresh | split ] ].
  - unfold UserObject.User_, UserObject.__init__, UserObject.setattr.
    cbn. fold self. f_equal.
    rewrite !alter_insert_eq. by rewrite insert_empty.
  - eexists. split; [ apply lookup_insert_eq | ].
    cbn. repeat split; by simplify_map_eq.
  - intros other Hother. by rewrite lookup_insert_ne.
Qed.

(** An object that has lost its [name] makes the method raise; the default
    of [age] kept on the class stands in for a lost [age]. *)
Example to_dict_without_name :
  UserObject.call (UserObject.to_dict 1)
                  {[ 1%positive := {[ "email" := VStr "ada@example.com" ]} ]}
  = (Raise AttributeError,
     {[ 1%positive := {[ "email" := VStr "ada@example.com" ]} ]}) ∧
  UserObject.call (UserObject.to_dict 1)
                  {[ 1%positive := {[ "name" := VStr "Ada";
                                      "email" := VStr "ada@example.com" ]} ]}
  = (Return (Flask.to_dict ada_user),
     {[ 1%positive := {[ "name" := VStr "Ada";
                         "email" := VStr "ada@example.com" ]} ]}).
Proof. split; reflexivity. Qed.

(** C9. Serialization is a total, deterministic, pure projection. On every
    heap and for every [User] object on it whose fields are set, [to_dict]
    returns (it does not raise), what it returns is the mapping with exactly
    the entries "name", "email" and "age", each holding the object's field,
    and the heap afterwards is the heap before: neither the record nor any
    other object is modified (nor is any when the method is called on an
    object that lacks a field and raises). Equal records give equal
    mappings, whichever objects hold them and whatever else is on their
    heaps. *)
Theorem to_dict_projection (h : UserObject.heap) (self : positive)
    (u : Flask.User) :
  UserObject.holds h self u →
  (∃ d : gmap string value,
     UserObject.call (UserObject.to_dict self) h = (Return d, h) ∧
     d = Flask.to_dict u ∧
     d !! "name" = Some (Flask.name u) ∧
     d !! "email" = Some (Flask.email u) ∧
     d !! "age" = Some (Flask.age u) ∧
     dom d = {[ "name"; "email"; "age" ]}) ∧
  (∀ (h' : UserObject.heap) (self' : positive) (u' : Flask.User),
     UserObject.holds h' self' u' → u' = u →
     (UserObject.call (UserObject.to_dict self') h').1
     = (UserObject.call (UserObject.to_dict self) h).1) ∧
  (∀ (h0 : UserObject.heap) (self0 : positive),
     (UserObject.call (UserObject.to_dict self0) h0).2 = h0).
Proof.
  intros Hu. split; [ | split; [ | exact (λ h0 self0, to_dict_heap self0 h0) ] ].
  - exists (Flask.to_dict u). split; [ by apply to_dict_holds | ].
    split; [ reflexivity | ].
    destruct (to_dict_fields u) as (Hn & He & Ha).
    split; [ exact Hn | ]. split; [ exact He | ]. split; [ exact Ha | ].
    apply to_dict_dom.
  - intros h' self' u' Hu' ->.
    by rewrite (to_dict_holds _ _ _ Hu), (to_dict_holds _ _ _ Hu').
Qed.

Lemma to_dict_projection_witness :
  UserObject.holds ada_heap 1 ada_user ∧
  UserObject.call (UserObject.to_dict 1) ada_heap
    = (Return {[ "name" := VStr "Ada"; "email" := VStr "ada@example.com";
                 "age" := VNone ]}, ada_heap).
Proof.
  assert (Hu : UserObject.holds ada_heap 1 ada_user).
  { eexists. split; [ reflexivity | ]. repeat split; reflexivity. }
  split; [ exact Hu | ].
  destruct (proj1 (to_dict_projection ada_heap 1 ada_user Hu))
    as (d & Hcall & -> & _).
  exact Hcall.
Defined.

(** C10. The serialized result of a creation depends only on the input's
    'name', 'email' and 'age' entries: two input mappings that agree on
    those three keys and both succeed give equal serialized records (and
    equal answers), and the serialized record has exactly the keys "name",
    "email" and "age", so no other key of the input shows up in it. *)
Theorem to_dict_depends_on_three_keys (builtin_repr : value → string)
    (d1 d2 : gmap string value) (u1 u2 : Flask.User) :
  d1 !! "name" = d2 !! "name" →
  d1 !! "email" = d2 !! "email" →
  d1 !! "age" = d2 !! "age" →
  Flask.validate_and_create (VDict d1) = Return (Flask.Accepted u1) →
  Flask.validate_and_create (VDict d2) = Return (Flask.Accepted u2) →
  Flask.to_dict u1 = Flask.to_dict u2 ∧
  Flask.create_user builtin_repr (VDict d1)
    = Flask.create_user builtin_repr (VDict d2) ∧
  dom (Flask.to_dict u1) = {[ "name"; "email"; "age" ]} ∧
  ∀ k : string,
    k ≠ "name" → k ≠ "email" → k ≠ "age" → Flask.to_dict u1 !! k = None.
Proof.
  intros Hn He Ha H1 H2.
  assert (u1 = u2) as <-.
  { rewrite validate_and_create_dict in H1, H2.
    rewrite <- Hn, <- He, <- Ha in H2. rewrite H1 in H2. by injection H2. }
  split; [ reflexivity | ].
  split; [ by rewrite !(create_user_accepted _ _ u1) | ].
  split; [ apply to_dict_dom | ].
  intros k ? ? ?. rewrite to_dict_lookup. by repeat case_decide.
Qed.

Lemma to_dict_depends_on_three_keys_witness :
  ada_with_role !! "role" = Some (VStr "admin") ∧
  ada_input !! "role" = None ∧
  Flask.to_dict ada_user !! "role" = None ∧
  Flask.create_user no_repr (VDict ada_input)
    = Flask.create_user no_repr (VDict ada_with_role).
Proof.
  split; [ reflexivity | ]. split; [ reflexivity | ].
  destruct (to_dict_depends_on_three_keys no_repr ada_input ada_with_role
              ada_user ada_user)
    as (_ & Hresp & _ & Hextra); try reflexivity.
  split; [ | exact Hresp ].
  apply Hextra; discriminate.
Defined.

(** ** The persisted variant: ordering of the listing *)

Lemma compare_cells_antisym (a b : value) :
  Django.compare_cells b a = CompOpp (Django.compare_cells a b).
Proof.
  destruct a, b; cbn; try reflexivity.
  - apply Z.compare_antisym.
  - apply String.compare_antisym.
Qed.

Lemma compare_by_antisym (term : Django.direction * string) (a b : Django.User) :
  Django.compare_by term b a = CompOpp (Django.compare_by term a b).
Proof.
  unfold Django.compare_by.
  destruct (Django.getattr a term.2), (Django.getattr b term.2); try reflexivity.
  destruct term.1; apply compare_cells_antisym.
Qed.

Lemma compare_rows_antisym (terms : list (Django.direction * string))
    (a b : Django.User) :
  Django.compare_rows terms b a = CompOpp (Django.compare_rows terms a b).
Proof.
  induction terms as [ | term rest IH ]; cbn; [ reflexivity | ].
  rewrite (compare_by_antisym term a b).
  destruct (Django.compare_by term a b); cbn; auto.
Qed.

Lemma precedes_total (terms : list (Django.direction * string)) :
  Total (Django.precedes terms).
Proof.
  intros a b. unfold Django.precedes.
  rewrite (compare_rows_antisym terms a b).
  destruct (Django.compare_rows terms a b); cbn; auto.
Qed.

(** Under the declared [Meta.ordering] a row precedes another exactly when
    it was not created earlier. *)
Lemma precedes_declared (a b : Django.User) :
  Django.precedes (Django.order_term <$> Django.Meta_ordering) a b
  ↔ Django.created_at b ≤ Django.created_at a.
Proof.
  unfold Django.precedes. cbn.
  change (Django.compare_by (Django.Descending, "created_at") a b)
    with (Django.created_at b ?= Django.created_at a).
  unfold Z.le.
  destruct (Django.created_at b ?= Django.created_at a); split; congruence.
Qed.

Lemma Sorted_weaken {A} (R1 R2 : relation A) (l : list A) :
  (∀ x y, R1 x y → R2 x y) → Sorted R1 l → Sorted R2 l.
Proof.
  intros Himp. induction 1 as [ | x l _ IH Hhd ]; constructor; [ exact IH | ].
  destruct Hhd; constructor; auto.
Qed.

Lemma StronglySorted_lookup {A} (R : relation A) (l : list A) (i j : nat) (x y : A) :
  StronglySorted R l → (i < j)%nat → l !! i = Some x → l !! j = Some y → R x y.
Proof.
  intros Hs. revert i j. induction Hs as [ | z l Hs IH Hall ]; intros i j Hij Hi Hj.
  - discriminate Hi.
  - destruct j as [ | j ]; [ lia | ]. cbn in Hj.
    destruct i as [ | i ]; cbn in Hi.
    + injection Hi as ->. rewrite Forall_forall in Hall.
      apply Hall. by eapply list_elem_of_lookup_2.
    + apply (IH i j); [ lia | done | done ].
Qed.

Lemma objects_all_sorted (t : Django.Table) :
  StronglySorted (λ a b, Django.created_at b ≤ Django.created_at a)
                 (Django.objects_all t).
Proof.
  apply Sorted_StronglySorted.
  - intros a b c Hab Hbc. lia.
  - apply (Sorted_weaken
             (Django.precedes (Django.order_term <$> Django.Meta_ordering))).
    + intros a b. apply precedes_declared.
    + unfold Django.objects_all. apply Sorted_merge_sort, precedes_total.
Qed.

(** C8. In the persisted variant every listing is ordered by descending
    creation time: of two rows of a listing, the one listed first was not
    created before the other; and the listing holds exactly the saved rows.
    (The Flask service keeps no records and has no listing whose order could
    be stated.) *)
Theorem objects_all_newest_first (t : Django.Table) :
  (∀ (i j : nat) (a b : Django.User),
     (i < j)%nat →
     Django.objects_all t !! i = Some a →
     Django.objects_all t !! j = Some b →
     Django.created_at b ≤ Django.created_at a) ∧
  Sorted (λ a b, Django.created_at b ≤ Django.created_at a) (Django.objects_all t) ∧
  Django.objects_all t ≡ₚ Django.rows t.
Proof.
  split; [ | split ].
  - intros i j a b Hij Ha Hb.
    exact (StronglySorted_lookup _ _ i j a b (objects_all_sorted t) Hij Ha Hb).
  - apply StronglySorted_Sorted, objects_all_sorted.
  - unfold Django.objects_all. apply merge_sort_Permutation.
Qed.

Lemma objects_all_newest_first_witness :
  Django.objects_all two_saved = [second_user; first_user] ∧
  Django.created_at first_user ≤ Django.created_at second_user.
Proof.
  assert (Hall : Django.objects_all two_saved = [second_user; first_user])
    by reflexivity.
  split; [ exact Hall | ].
  apply (proj1 (objects_all_newest_first two_saved) 0%nat 1%nat);
    [ lia | rewrite Hall; reflexivity | rewrite Hall; reflexivity ].
Defined.

(** ** The persisted variant: uniqueness of the email *)

Lemma save_ok_inv (t t' : Django.Table) (now : Z) (n e : string)
    (a : option Z) (u : Django.User) :
  Django.save t now n e a = (t', Django.Ok u) →
  u = {| Django.id := Django.next_id t; Django.name := n; Django.email := e;
         Django.age := a; Django.created_at := now; Django.updated_at := now |} ∧
  Django.rows t' = Django.rows t ++ [u] ∧
  Django.next_id t' = Django.next_id t + 1.
Proof.
  unfold Django.save. destruct (Django.violates_unique _ _); intros [= <- <-].
  cbn. auto.
Qed.

(** A call to [save] only ever appends to the table and advances the
    sequence. *)
Lemma save_extends (t : Django.Table) (now : Z) (n e : string) (a : option Z) :
  ∃ added : list Django.User,
    Django.rows (Django.save t now n e a).1 = Django.rows t ++ added ∧
    Django.next_id t ≤ Django.next_id (Django.save t now n e a).1 ∧
    Forall (λ u, Django.next_id t ≤ Django.id u
                 ∧ Django.id u < Django.next_id (Django.save t now n e a).1) added.
Proof.
  unfold Django.save. destruct (Django.violates_unique _ _); cbn.
  - exists []. rewrite app_nil_r. split; [ done | ]. split; [ lia | constructor ].
  - eexists [_]. split; [ done | ]. split; [ lia | ].
    constructor; [ cbn; lia | constructor ].
Qed.

Lemma save_all_extends (calls : list (Z * string * string * option Z))
    (t : Django.Table) :
  ∃ added : list Django.User,
    Django.rows (Django.save_all t calls) = Django.rows t ++ added ∧
    Django.next_id t ≤ Django.next_id (Django.save_all t calls) ∧
    Forall (λ u, Django.next_id t ≤ Django.id u) added.
Proof.
  revert t. induction calls as [ | [[[now n] e] a] rest IH ]; intros t; cbn.
  - exists []. rewrite app_nil_r. split; [ done | ]. split; [ lia | constructor ].
  - destruct (save_extends t now n e a) as (l1 & Hrows1 & Hnext1 & Hids1).
    destruct (IH (Django.save t now n e a).1) as (l2 & Hrows2 & Hnext2 & Hids2).
    exists (l1 ++ l2). rewrite Hrows2, Hrows1, app_assoc.
    split; [ done | ]. split; [ lia | ].
    apply Forall_app. split.
    + eapply Forall_impl; [ exact Hids1 | ]. cbn. intros; lia.
    + eapply Forall_impl; [ exact Hids2 | ]. cbn. intros; lia.
Qed.

Lemma find_first_with_id (before after : list Django.User) (u : Django.User) :
  Forall (λ v, Django.id v ≠ Django.id u) before →
  find (λ v, bool_decide (Django.id v = Django.id u)) (before ++ u :: after)
  = Some u.
Proof.
  induction 1 as [ | v before Hv _ IH ]; cbn.
  - by rewrite bool_decide_eq_true_2.
  - by rewrite bool_decide_eq_false_2.
Qed.

(** A saved row with the same email makes the unique check fire. *)
Lemma violates_unique_same_email (saved : list Django.User) (u new : Django.User) :
  u ∈ saved → Django.email new = Django.email u →
  Django.violates_unique saved new = true.
Proof.
  intros Hin Hemail. unfold Django.violates_unique.
  apply existsb_exists.
  exists ("email", {| Django.type_ := Django.EmailField; Django.primary_key := false;
                     Django.max_length := Some 254; Django.unique := true;
                     Django.null := false; Django.blank := false;
                     Django.auto_now_add := false; Django.auto_now := false |}).
  split; [ cbn; tauto | ].
  cbn [snd fst Django.unique andb].
  apply existsb_exists. exists u. split; [ by apply list_elem_of_In | ].
  unfold Django.collides. cbn [fst].
  change (Django.getattr new "email") with (Some (VStr (Django.email new))).
  change (Django.getattr u "email") with (Some (VStr (Django.email u))).
  cbn [Django.same_cell]. by apply bool_decide_eq_true_2.
Qed.

(** The invariant holds of the empty table and is kept by every operation. *)
Lemma ids_issued_empty : Django.ids_issued Django.empty.
Proof. constructor. Qed.

Lemma ids_issued_save (t : Django.Table) (now : Z) (n e : string) (a : option Z) :
  Django.ids_issued t → Django.ids_issued (Django.save t now n e a).1.
Proof.
  unfold Django.ids_issued, Django.save. intros Ht.
  destruct (Django.violates_unique _ _); cbn; [ exact Ht | ].
  apply Forall_app. split.
  - eapply Forall_impl; [ exact Ht | ]. cbn. intros; lia.
  - constructor; [ cbn; lia | constructor ].
Qed.

Lemma ids_issued_delete (t : Django.Table) (k : Z) :
  Django.ids_issued t → Django.ids_issued (Django.delete t k).1.
Proof.
  unfold Django.ids_issued, Django.delete. intros Ht.
  destruct (Django.get t k); cbn; [ | exact Ht ].
  apply Forall_forall. intros u Hu. apply list_elem_of_filter in Hu as [_ Hu].
  rewrite Forall_forall in Ht. by apply Ht.
Qed.

Lemma save_duplicate_email (t t1 : Django.Table) (now1 now2 : Z)
    (n1 n2 e : string) (a1 a2 : option Z) (u1 : Django.User)
    (others : list (Z * string * string * option Z)) :
  Django.ids_issued t →
  Django.save t now1 n1 e a1 = (t1, Django.Ok u1) →
  Django.save (Django.save_all t1 others) now2 n2 e a2
    = (Django.save_all t1 others, Django.Err Django.UniquenessError) ∧
  Django.get (Django.save_all t1 others) (Django.id u1) = Django.Ok u1.
Proof.
  intros Hids Hsave.
  destruct (save_ok_inv _ _ _ _ _ _ _ Hsave) as (Hu1 & Hrows1 & Hnext1).
  destruct (save_all_extends others t1) as (added & Hrows2 & _ & _).
  rewrite Hrows1, <- app_assoc in Hrows2. cbn in Hrows2.
  split.
  - unfold Django.save.
    rewrite (violates_unique_same_email _ u1); [ reflexivity | | ].
    + rewrite Hrows2. apply elem_of_app. right. by left.
    + rewrite Hu1. reflexivity.
  - unfold Django.get. rewrite Hrows2, find_first_with_id; [ reflexivity | ].
    eapply Forall_impl; [ exact Hids | ]. cbn. intros v Hv.
    rewrite Hu1. cbn. lia.
Qed.

(** C7. In the persisted variant, once a creation with some email has
    succeeded, a later creation with the same email (after any number of
    other creation calls) fails with the uniqueness error and leaves the
    table as it was, and the first record is still retrieved by its id,
    unchanged, before and after the failed call. The Flask view keeps no
    records: two requests with the same email are both answered 201. *)
Theorem duplicate_email_rejected :
  (∀ (t t1 : Django.Table) (now1 now2 : Z) (n1 n2 e : string)
     (a1 a2 : option Z) (u1 : Django.User)
     (others : list (Z * string * string * option Z)),
     Django.ids_issued t →
     Django.save t now1 n1 e a1 = (t1, Django.Ok u1) →
     let t2 := Django.save_all t1 others in
     Django.save t2 now2 n2 e a2 = (t2, Django.Err Django.UniquenessError) ∧
     Django.get t2 (Django.id u1) = Django.Ok u1 ∧
     Django.get (Django.save t2 now2 n2 e a2).1 (Django.id u1) = Django.Ok u1) ∧
  (∀ (builtin_repr : value → string) (d1 d2 : gmap string value),
     is_Some (d1 !! "name") → is_Some (d1 !! "email") →
     is_Some (d2 !! "name") → d2 !! "email" = d1 !! "email" →
     ∃ b1 b2 : gmap string value,
       Flask.create_user builtin_repr (VDict d1)
         = Return {| data := VDict b1; status := 201 |} ∧
       Flask.create_user builtin_repr (VDict d2)
         = Return {| data := VDict b2; status := 201 |}).
Proof.
  split.
  - intros t t1 now1 now2 n1 n2 e a1 a2 u1 others Hids Hsave t2.
    destruct (save_duplicate_email t t1 now1 now2 n1 n2 e a1 a2 u1 others
                Hids Hsave) as [Hfail Hget].
    fold t2 in Hfail, Hget.
    split; [ exact Hfail | ]. split; [ exact Hget | ].
    rewrite Hfail. exact Hget.
  - intros builtin_repr d1 d2 [n1 Hn1] [e Hemail1] [n2 Hn2] Hemail2.
    rewrite Hemail1 in Hemail2.
    eexists _, _. split.
    + apply create_user_accepted. rewrite validate_and_create_dict, Hn1, Hemail1.
      reflexivity.
    + apply create_user_accepted. rewrite validate_and_create_dict, Hn2, Hemail2.
      reflexivity.
Qed.

Lemma duplicate_email_rejected_witness :
  Django.ids_issued Django.empty ∧
  Django.save Django.empty 10 "Ada" "ada@example.com" None
    = (first_saved, Django.Ok first_user) ∧
  Django.save first_saved 20 "Eve" "ada@example.com" (Some 30)
    = (first_saved, Django.Err Django.UniquenessError) ∧
  Django.get first_saved 1 = Django.Ok first_user.
Proof.
  assert (Hsave : Django.save Django.empty 10 "Ada" "ada@example.com" None
                  = (first_saved, Django.Ok first_user)) by reflexivity.
  split; [ apply ids_issued_empty | ]. split; [ exact Hsave | ].
  destruct (proj1 duplicate_email_rejected Django.empty first_saved 10 20
              "Ada" "Eve" "ada@example.com" None (Some 30) first_user []
              ids_issued_empty Hsave) as (Hfail & Hget & _).
  split; [ exact Hfail | exact Hget ].
Defined.

(** Two saves at different instants are listed newest first, and a row
    saved with a fresh email is accepted. *)
Example save_second_user :
  Django.save first_saved 20 "Bob" "bob@example.com" (Some 3)
    = (two_saved, Django.Ok second_user) ∧
  Django.get two_saved 2 = Django.Ok second_user ∧
  Django.get two_saved 5 = Django.Err Django.NotFoundError ∧
  Django.delete two_saved 1
    = ({| Django.rows := [second_user]; Django.next_id := 3 |}, Django.Ok ()).
Proof. repeat split; reflexivity. Qed.

(** * Further properties of the handlers *)

(** ** The Flask view on documents of any shape *)

Lemma truthy_false_iff (data : value) :
  truthy data = false ↔
  data = VNone ∨ data = VBool false ∨ data = VInt 0
  ∨ (∃ sign, data = VFloat (S754_zero sign))
  ∨ data = VStr "" ∨ data = VList [] ∨ data = VDict ∅.
Proof.
  split.
  - destruct data as [ | b | z | f | s | l | d ]; cbn; intros H.
    + auto.
    + subst b. auto.
    + apply negb_false_iff, Z.eqb_eq in H. subst z. auto.
    + destruct f; try discriminate H. eauto 10.
    + apply negb_false_iff, bool_decide_eq_true in H. subst s. auto 10.
    + apply negb_false_iff, bool_decide_eq_true in H. subst l. auto 10.
    + apply negb_false_iff, bool_decide_eq_true in H. subst d. auto 10.
  - intros [-> | [-> | [-> | [[sign ->] | [-> | [-> | ->]]]]]]; reflexivity.
Qed.

Lemma validate_and_create_falsy (data : value) :
  truthy data = false →
  Flask.validate_and_create data = Return (Flask.Rejected bad_request).
Proof.
  intros H. unfold Flask.validate_and_create, or_else. rewrite H. reflexivity.
Qed.

(** X1. A document that Python counts as false is turned down with the 400
    answer, before the view looks for any key: that is [None] (a JSON
    null), [false], a zero of either sign, the empty string, the empty
    array and the empty object, and nothing else. *)
Theorem create_user_falsy_document (builtin_repr : value → string) (data : value) :
  truthy data = false →
  Flask.create_user builtin_repr data = Return bad_request ∧
  (data = VNone ∨ data = VBool false ∨ data = VInt 0
   ∨ (∃ sign, data = VFloat (S754_zero sign))
   ∨ data = VStr "" ∨ data = VList [] ∨ data = VDict ∅).
Proof.
  intros H. split.
  - apply create_user_rejected, validate_and_create_falsy, H.
  - apply truthy_false_iff, H.
Qed.

Lemma create_user_falsy_document_witness :
  truthy (VList []) = false ∧
  Flask.create_user no_repr (VList []) = Return bad_request.
Proof.
  split; [ reflexivity | ].
  apply (create_user_falsy_document no_repr (VList []) eq_refl).
Defined.

Lemma validate_and_create_rejected_inv (data : value) (r : response) :
  Flask.validate_and_create data = Return (Flask.Rejected r) → r = bad_request.
Proof.
  unfold Flask.validate_and_create.
  destruct (or_else _ _) as [ [ | ] | e ]; cbn; intros H.
  - by injection H as <-.
  - destruct (getitem data "name"); cbn in H; [ | discriminate H ].
    destruct (getitem data "email"); cbn in H; [ | discriminate H ].
    destruct (get data "age"); cbn in H; discriminate H.
  - discriminate H.
Qed.

Lemma create_user_return_inv (builtin_repr : value → string) (data : value)
    (r : response) :
  Flask.create_user builtin_repr data = Return r →
  Flask.validate_and_create data = Return (Flask.Rejected bad_request) ∧ r = bad_request
  ∨ ∃ u, Flask.validate_and_create data = Return (Flask.Accepted u) ∧ status r = 201.
Proof.
  unfold Flask.create_user.
  destruct (Flask.validate_and_create data) as [ [ r' | u ] | e ] eqn:Hv;
    cbn; intros H; [ | | discriminate H ].
  - injection H as <-. pose proof (validate_and_create_rejected_inv _ _ Hv) as ->.
    by left.
  - injection H as <-. right. by exists u.
Qed.

(** X2. Whenever the creation view returns at all, its answer is one of two:
    status 201, exactly when the document is an object holding both 'name'
    and 'email', or else the fixed 400 answer with the error message. No
    other status and no other error body leaves the view. *)
Theorem create_user_two_answers (builtin_repr : value → string) (data : value)
    (r : response) :
  Flask.create_user builtin_repr data = Return r →
  (status r = 201 ↔
     ∃ d : gmap string value,
       data = VDict d ∧ is_Some (d !! "name") ∧ is_Some (d !! "email")) ∧
  (status r ≠ 201 → r = bad_request).
Proof.
  intros Hr.
  destruct (create_user_return_inv _ _ _ Hr) as [[Hv ->] | (u & Hv & Hs)].
  - split; [ | done ]. split; [ discriminate | ].
    intros (d & -> & [n Hn] & [e He]).
    rewrite validate_and_create_dict, Hn, He in Hv. discriminate Hv.
  - split; [ | done ]. split; [ | done ]. intros _.
    destruct (validate_and_create_accepted_inv _ _ Hv) as (d & -> & Hn & He & _).
    exists d. eauto.
Qed.

Lemma create_user_two_answers_witness :
  ∃ r : response,
    Flask.create_user no_repr (VDict ada_input) = Return r ∧
    status r = 201 ∧
    ∃ d : gmap string value,
      VDict ada_input = VDict d ∧ is_Some (d !! "name") ∧ is_Some (d !! "email").
Proof.
  pose proof (create_user_accepted no_repr (VDict ada_input) ada_user eq_refl)
    as Hr.
  eexists. split; [ exact Hr | ]. split; [ reflexivity | ].
  exact (proj1 (proj1 (create_user_two_answers no_repr _ _ Hr)) eq_refl).
Defined.

Lemma existsb_str_eq (key : string) (l : list value) :
  existsb (str_eq key) l = true ↔ VStr key ∈ l.
Proof.
  rewrite existsb_exists. split.
  - intros (v & Hin & Hv). destruct v; try discriminate Hv.
    cbn in Hv. apply bool_decide_eq_true in Hv. subst. by apply list_elem_of_In.
  - intros Hin. exists (VStr key). split; [ by apply list_elem_of_In | ].
    cbn. by apply bool_decide_eq_true_2.
Qed.

Lemma prefix_app (a b : string) :
  String.prefix a b = true ↔ ∃ post, b = a +:+ post.
Proof.
  revert b. induction a as [ | c a IH ]; intros b.
  - split; [ intros _; by exists b | intros _; by destruct b ].
  - destruct b as [ | c' b ].
    + split; [ done | intros [post H]; discriminate H ].
    + change (String.prefix (String c a) (String c' b))
        with (if Ascii.ascii_dec c c' then String.prefix a b else false).
      destruct (Ascii.ascii_dec c c') as [ <- | Hne ].
      * rewrite IH. split; intros [post H]; exists post.
        -- by rewrite H.
        -- by injection H.
      * split; [ done | intros [post [= ? _]]; done ].
Qed.

(** The substring test finds exactly the strings that have the needle
    somewhere inside. *)
Lemma str_contains_app (needle hay : string) :
  str_contains needle hay = true ↔ ∃ pre post, hay = pre +:+ needle +:+ post.
Proof.
  induction hay as [ | c hay IH ]; cbn [str_contains].
  - rewrite orb_false_r, prefix_app. split.
    + intros [post H]. by exists "", post.
    + intros (pre & post & H). destruct pre; [ by exists post | discriminate H ].
  - rewrite orb_true_iff, IH, prefix_app. split.
    + intros [[post H] | (pre & post & H)].
      * by exists "", post.
      * exists (String c pre), post. by rewrite H.
    + intros (pre & post & H). destruct pre as [ | c' pre ].
      * left. by exists post.
      * right. exists pre, post. by injection H.
Qed.

Lemma validate_and_create_list (l : list value) :
  Flask.validate_and_create (VList l) =
    if existsb (str_eq "name") l && existsb (str_eq "email") l
    then Raise TypeError
    else Return (Flask.Rejected bad_request).
Proof.
  destruct l as [ | v l ]; [ reflexivity | ].
  unfold Flask.validate_and_create, or_else, not_.
  change (truthy (VList (v :: l))) with true. cbn [negb contains].
  rewrite !bind_return.
  destruct (existsb (str_eq "name") (v :: l)); [ | reflexivity ].
  cbn [negb]. rewrite !bind_return.
  destruct (existsb (str_eq "email") (v :: l)); reflexivity.
Qed.

Lemma validate_and_create_str (s : string) :
  Flask.validate_and_create (VStr s) =
    if str_contains "name" s && str_contains "email" s
    then Raise TypeError
    else Return (Flask.Rejected bad_request).
Proof.
  destruct s as [ | c s ]; [ reflexivity | ].
  unfold Flask.validate_and_create, or_else, not_.
  change (truthy (VStr (String c s))) with true. cbn [negb contains].
  rewrite !bind_return.
  destruct (str_contains "name" (String c s)); [ | reflexivity ].
  cbn [negb]. rewrite !bind_return.
  destruct (str_contains "email" (String c s)); reflexivity.
Qed.

Lemma create_user_raise_inv (builtin_repr : value → string) (data : value)
    (e : exn) :
  Flask.create_user builtin_repr data = Raise e ↔
  Flask.validate_and_create data = Raise e.
Proof.
  unfold Flask.create_user.
  destruct (Flask.validate_and_create data) as [ [ r | u ] | e' ]; cbn;
    split; intros H; try discriminate H; by injection H as ->.
Qed.

(** X3. Once [request.get_json()] has handed the view a document, the only
    exception the rest of the view (lines 18-30) raises is [TypeError], and
    only on a document that counts as true and is not an object: a number
    other than zero or [true] (the membership test fails), and an array or a
    string that holds both words (the check passes and [data['name']]
    fails). An array lacking one of the two strings, or a string in which
    one of the words does not occur, gets the 400 answer instead. (Whether
    [get_json] itself turns a request down is outside this statement.) *)
Theorem create_user_only_type_error (builtin_repr : value → string) :
  (∀ (data : value) (e : exn),
     Flask.create_user builtin_repr data = Raise e →
     e = TypeError ∧ truthy data = true ∧ ∀ d, data ≠ VDict d) ∧
  (∀ l : list value,
     (VStr "name" ∈ l ∧ VStr "email" ∈ l →
      Flask.create_user builtin_repr (VList l) = Raise TypeError) ∧
     (¬ (VStr "name" ∈ l ∧ VStr "email" ∈ l) →
      Flask.create_user builtin_repr (VList l) = Return bad_request)) ∧
  (∀ s : string,
     Flask.create_user builtin_repr (VStr s) = Raise TypeError ↔
     (∃ pre post, s = pre +:+ "name" +:+ post) ∧
     (∃ pre post, s = pre +:+ "email" +:+ post)) ∧
  (∀ z : Z, z ≠ 0 → Flask.create_user builtin_repr (VInt z) = Raise TypeError) ∧
  Flask.create_user builtin_repr (VBool true) = Raise TypeError.
Proof.
  split; [ | split; [ | split; [ | split ] ] ].
  - intros data e H. apply create_user_raise_inv in H.
    destruct (truthy data) eqn:Ht;
      [ | rewrite (validate_and_create_falsy _ Ht) in H; discriminate H ].
    destruct data as [ | b | z | f | s | l | d ].
    + discriminate Ht.
    + cbn in Ht. subst b. by injection H as <-.
    + unfold Flask.validate_and_create, or_else in H. rewrite Ht in H.
      by injection H as <-.
    + unfold Flask.validate_and_create, or_else in H. rewrite Ht in H.
      by injection H as <-.
    + rewrite validate_and_create_str in H.
      destruct (_ && _); [ by injection H as <- | discriminate H ].
    + rewrite validate_and_create_list in H.
      destruct (_ && _); [ by injection H as <- | discriminate H ].
    + rewrite validate_and_create_dict in H.
      destruct (d !! "name"), (d !! "email"); discriminate H.
  - intros l. unfold Flask.create_user. rewrite validate_and_create_list.
    rewrite <- !existsb_str_eq.
    destruct (existsb (str_eq "name") l), (existsb (str_eq "email") l);
      cbn [andb]; split; try reflexivity; intros H; try tauto;
      destruct H; discriminate.
  - intros s. rewrite create_user_raise_inv, validate_and_create_str.
    rewrite <- !str_contains_app.
    destruct (str_contains "name" s), (str_contains "email" s); cbn;
      split; try done; intros [? ?]; done.
  - intros z Hz. apply create_user_raise_inv.
    unfold Flask.validate_and_create, or_else. cbn [truthy].
    apply Z.eqb_neq in Hz. rewrite Hz. reflexivity.
  - reflexivity.
Qed.

Lemma create_user_only_type_error_witness :
  Flask.create_user no_repr (VList [VStr "email"; VInt 1; VStr "name"])
    = Raise TypeError ∧
  Flask.create_user no_repr (VList [VStr "email"; VInt 1]) = Return bad_request ∧
  truthy (VList [VStr "email"; VInt 1; VStr "name"]) = true.
Proof.
  split; [ | split ].
  - apply (proj1 (proj2 (create_user_only_type_error no_repr))).
    split; [ by do 2 right; left | by left ].
  - apply (proj1 (proj2 (create_user_only_type_error no_repr))).
    intros [Hname _]. by repeat (apply elem_of_cons in Hname as [ | Hname]);
      [ .. | apply elem_of_nil in Hname ].
  - exact (proj1 (proj2 (proj1 (create_user_only_type_error no_repr) _ _
                   (eq_refl : Flask.create_user no_repr
                                (VList [VStr "email"; VInt 1; VStr "name"])
                              = Raise TypeError)))).
Defined.

(** X4. An 'age' that is present with the value null cannot be told from an
    absent 'age': the two requests get the same answer. *)
Theorem create_user_null_age (builtin_repr : value → string)
    (d : gmap string value) :
  Flask.create_user builtin_repr (VDict (<[ "age" := VNone ]> d))
  = Flask.create_user builtin_repr (VDict (delete "age" d)).
Proof.
  unfold Flask.create_user. rewrite !validate_and_create_dict.
  rewrite !lookup_insert_ne, !lookup_delete_ne by done.
  rewrite lookup_insert_eq, lookup_delete_eq. reflexivity.
Qed.

(** X5. Serialization loses nothing of a record: two records with the same
    serialized mapping are the same record. *)
Theorem to_dict_inj (u1 u2 : Flask.User) :
  Flask.to_dict u1 = Flask.to_dict u2 → u1 = u2.
Proof.
  intros H.
  pose proof (f_equal (λ m : gmap string value, m !! "name") H) as Hn.
  pose proof (f_equal (λ m : gmap string value, m !! "email") H) as He.
  pose proof (f_equal (λ m : gmap string value, m !! "age") H) as Ha.
  cbn beta in Hn, He, Ha.
  destruct (to_dict_fields u1) as (Hn1 & He1 & Ha1).
  destruct (to_dict_fields u2) as (Hn2 & He2 & Ha2).
  rewrite Hn1, Hn2 in Hn. rewrite He1, He2 in He. rewrite Ha1, Ha2 in Ha.
  destruct u1, u2. cbn in *. congruence.
Qed.

Lemma to_dict_inj_witness :
  Flask.to_dict ada_user = Flask.to_dict ada_user ∧ ada_user = ada_user.
Proof.
  split; [ reflexivity | ].
  apply (to_dict_inj ada_user ada_user). reflexivity.
Defined.

(** ** The configuration of the Flask service *)

Lemma lower_char_t (c : ascii) :
  FlaskConfig.lower_char c = "t"%char ↔ c = "t"%char ∨ c = "T"%char.
Proof.
  split; [ | by intros [-> | ->] ].
  destruct c as [[] [] [] [] [] [] [] []]; vm_compute; intros H;
    first [ discriminate H | by left | by right ].
Qed.

Lemma lower_char_r (c : ascii) :
  FlaskConfig.lower_char c = "r"%char ↔ c = "r"%char ∨ c = "R"%char.
Proof.
  split; [ | by intros [-> | ->] ].
  destruct c as [[] [] [] [] [] [] [] []]; vm_compute; intros H;
    first [ discriminate H | by left | by right ].
Qed.

Lemma lower_char_u (c : ascii) :
  FlaskConfig.lower_char c = "u"%char ↔ c = "u"%char ∨ c = "U"%char.
Proof.
  split; [ | by intros [-> | ->] ].
  destruct c as [[] [] [] [] [] [] [] []]; vm_compute; intros H;
    first [ discriminate H | by left | by right ].
Qed.

Lemma lower_char_e (c : ascii) :
  FlaskConfig.lower_char c = "e"%char ↔ c = "e"%char ∨ c = "E"%char.
Proof.
  split; [ | by intros [-> | ->] ].
  destruct c as [[] [] [] [] [] [] [] []]; vm_compute; intros H;
    first [ discriminate H | by left | by right ].
Qed.

Lemma lower_true (s : string) :
  FlaskConfig.lower s = "true" ↔
  ∃ c1 c2 c3 c4 : ascii,
    s = String c1 (String c2 (String c3 (String c4 EmptyString))) ∧
    (c1 = "t" ∨ c1 = "T")%char ∧ (c2 = "r" ∨ c2 = "R")%char ∧
    (c3 = "u" ∨ c3 = "U")%char ∧ (c4 = "e" ∨ c4 = "E")%char.
Proof.
  split.
  - destruct s as [ | c1 [ | c2 [ | c3 [ | c4 [ | c5 s ] ] ] ] ]; cbn;
      intros H; try discriminate H.
    injection H as H1 H2 H3 H4.
    exists c1, c2, c3, c4. split; [ reflexivity | ].
    rewrite <- lower_char_t, <- lower_char_r, <- lower_char_u, <- lower_char_e.
    auto.
  - intros (c1 & c2 & c3 & c4 & -> & H1 & H2 & H3 & H4).
    apply lower_char_t in H1. apply lower_char_r in H2.
    apply lower_char_u in H3. apply lower_char_e in H4.
    cbn. by rewrite H1, H2, H3, H4.
Qed.

(** X6. Debug mode is on exactly when the variable DEBUG is set to the four
    letters of "true" in any mix of upper and lower case. Left unset, or
    set to anything else (such as "1", "yes" or " true"), it is off. *)
Theorem debug_iff_true (environ : gmap string string) :
  FlaskConfig.DEBUG (FlaskConfig.Config_ environ) = true ↔
  ∃ c1 c2 c3 c4 : ascii,
    environ !! "DEBUG"
      = Some (String c1 (String c2 (String c3 (String c4 EmptyString)))) ∧
    (c1 = "t" ∨ c1 = "T")%char ∧ (c2 = "r" ∨ c2 = "R")%char ∧
    (c3 = "u" ∨ c3 = "U")%char ∧ (c4 = "e" ∨ c4 = "E")%char.
Proof.
  unfold FlaskConfig.Config_, FlaskConfig.getenv. cbn [FlaskConfig.DEBUG].
  rewrite bool_decide_eq_true, lower_true.
  destruct (environ !! "DEBUG") as [ s | ]; cbn.
  - split; intros (c1 & c2 & c3 & c4 & H & Hc); exists c1, c2, c3, c4;
      (split; [ congruence | exact Hc ]).
  - split; intros (c1 & c2 & c3 & c4 & H & Hc); discriminate H.
Qed.

Lemma debug_iff_true_witness :
  FlaskConfig.DEBUG (FlaskConfig.Config_ {[ "DEBUG" := "TrUe" ]}) = true ∧
  FlaskConfig.DEBUG (FlaskConfig.Config_ {[ "DEBUG" := "1" ]}) = false ∧
  FlaskConfig.DEBUG (FlaskConfig.Config_ ∅) = false.
Proof.
  split; [ | split; reflexivity ].
  apply (proj2 (debug_iff_true {[ "DEBUG" := "TrUe" ]})).
  exists "T"%char, "r"%char, "U"%char, "e"%char.
  split; [ reflexivity | ]. auto.
Defined.

Lemma getenv_load_dotenv (dotenv environ : gmap string string)
    (key fallback : string) :
  FlaskConfig.getenv (FlaskConfig.load_dotenv dotenv environ) key fallback =
    match environ !! key with
    | Some v => v
    | None => default fallback (dotenv !! key)
    end.
Proof.
  unfold FlaskConfig.getenv, FlaskConfig.load_dotenv.
  rewrite lookup_union. destruct (environ !! key), (dotenv !! key); reflexivity.
Qed.

(** X7. For the application name and the secret key, a variable of the
    process environment wins over the same variable in the [.env] file, the
    file wins over the built-in default, and a variable that is set to the
    empty string is taken as it is: the development secret key is used only
    when SECRET_KEY is set in neither place. *)
Theorem config_precedence (dotenv environ : gmap string string) :
  FlaskConfig.APP_NAME (FlaskConfig.import_config dotenv environ) =
    match environ !! "APP_NAME" with
    | Some v => v
    | None => default "Flask Demo" (dotenv !! "APP_NAME")
    end ∧
  FlaskConfig.SECRET_KEY (FlaskConfig.import_config dotenv environ) =
    match environ !! "SECRET_KEY" with
    | Some v => v
    | None => default "dev-secret-key-change-in-production" (dotenv !! "SECRET_KEY")
    end ∧
  (environ !! "SECRET_KEY" = Some "" →
   FlaskConfig.SECRET_KEY (FlaskConfig.import_config dotenv environ) = "") ∧
  (FlaskConfig.SECRET_KEY (FlaskConfig.import_config dotenv environ)
     ≠ "dev-secret-key-change-in-production" →
   is_Some (environ !! "SECRET_KEY") ∨ is_Some (dotenv !! "SECRET_KEY")).
Proof.
  unfold FlaskConfig.import_config, FlaskConfig.Config_.
  cbn [FlaskConfig.APP_NAME FlaskConfig.SECRET_KEY].
  rewrite !getenv_load_dotenv.
  split; [ reflexivity | ]. split; [ reflexivity | ]. split.
  - by intros ->.
  - destruct (environ !! "SECRET_KEY"); [ eauto | ].
    destruct (dotenv !! "SECRET_KEY"); [ eauto | ]. cbn. done.
Qed.

Lemma config_precedence_witness :
  ({[ "SECRET_KEY" := "" ]} : gmap string string) !! "SECRET_KEY" = Some "" ∧
  FlaskConfig.SECRET_KEY
    (FlaskConfig.import_config {[ "SECRET_KEY" := "from-file" ]}
                               {[ "SECRET_KEY" := "" ]}) = "".
Proof.
  split; [ reflexivity | ].
  apply (config_precedence {[ "SECRET_KEY" := "from-file" ]}
                           {[ "SECRET_KEY" := "" ]}).
  reflexivity.
Defined.

(** ** The admin registration against the model *)

(** X8. The admin registration names only columns the model declares: every
    entry of [list_display], [list_filter], [search_fields] and
    [readonly_fields] is a declared field of [User] and can be read from any
    instance; the read-only fields are exactly the two columns the model
    fills in by itself ([auto_now_add], [auto_now]); the search fields are
    text columns; and [Meta.ordering] sorts by a declared column. *)
Theorem admin_names_declared_fields :
  Forall (λ column, column ∈ Django.fields.*1
                    ∧ ∀ u : Django.User, is_Some (Django.getattr u column))
         (DjangoAdmin.list_display ++ DjangoAdmin.list_filter
          ++ DjangoAdmin.search_fields ++ DjangoAdmin.readonly_fields) ∧
  DjangoAdmin.readonly_fields
    = (filter (λ decl : string * Django.Field,
                 Django.auto_now_add decl.2 = true ∨ Django.auto_now decl.2 = true)
              Django.fields).*1 ∧
  Forall (λ column,
            ∃ f, (column, f) ∈ Django.fields
                 ∧ (Django.type_ f = Django.CharField
                    ∨ Django.type_ f = Django.EmailField))
         DjangoAdmin.search_fields ∧
  Forall (λ term, (Django.order_term term).2 ∈ Django.fields.*1)
         Django.Meta_ordering.
Proof.
  split; [ | split; [ | split ] ].
  - repeat apply Forall_cons_2; try apply Forall_nil_2;
      (split; [ apply list_elem_of_In; cbn; tauto | intros u; by eexists ]).
  - reflexivity.
  - repeat apply Forall_cons_2; try apply Forall_nil_2;
      eexists; (split; [ apply list_elem_of_In; cbn; eauto 10 | cbn; auto ]).
  - repeat apply Forall_cons_2; try apply Forall_nil_2.
    apply list_elem_of_In. cbn. tauto.
Qed.

(** ** Runs of the persisted variant *)

Lemma violates_unique_false (saved : list Django.User) (new u : Django.User) :
  Django.violates_unique saved new = false → u ∈ saved →
  Django.email u ≠ Django.email new.
Proof.
  intros Hfalse Hin Heq.
  rewrite (violates_unique_same_email saved u new Hin) in Hfalse; done.
Qed.

Lemma NoDup_fmap_filter {A B} (f : A → B) (P : A → Prop)
    `{∀ x, Decision (P x)} (l : list A) :
  NoDup (f <$> l) → NoDup (f <$> filter P l).
Proof.
  induction l as [ | x l IH ]; [ done | ].
  rewrite fmap_cons, NoDup_cons. intros [Hx Hl]. rewrite filter_cons.
  destruct (decide (P x)); [ | by apply IH ].
  rewrite fmap_cons. apply NoDup_cons. split; [ | by apply IH ].
  intros Hin. apply Hx. apply list_elem_of_fmap in Hin as (y & -> & Hy).
  apply list_elem_of_filter in Hy as [_ Hy]. apply list_elem_of_fmap. eauto.
Qed.

(** What every table built by calls from the empty one satisfies. *)
Lemma table_invariant_step (t : Django.Table) (c : table_call) :
  Django.ids_issued t ∧ NoDup (Django.id <$> Django.rows t)
    ∧ NoDup (Django.email <$> Django.rows t) →
  Django.ids_issued (apply_call t c)
    ∧ NoDup (Django.id <$> Django.rows (apply_call t c))
    ∧ NoDup (Django.email <$> Django.rows (apply_call t c)).
Proof.
  intros (Hids & Hid & Hemail). destruct c as [ now n e a | k ]; cbn.
  - split; [ by apply ids_issued_save | ].
    unfold Django.save.
    destruct (Django.violates_unique _ _) eqn:Hv; cbn; [ done | ].
    rewrite !fmap_app. cbn. split; apply NoDup_app.
    + split; [ done | ]. split; [ | apply NoDup_singleton ].
      intros i Hi Hi'. apply list_elem_of_singleton in Hi'. subst i.
      apply list_elem_of_fmap in Hi as (u & Hu & Hin).
      unfold Django.ids_issued in Hids. rewrite Forall_forall in Hids.
      specialize (Hids u Hin). lia.
    + split; [ done | ]. split; [ | apply NoDup_singleton ].
      intros m Hm Hm'. apply list_elem_of_singleton in Hm'. subst m.
      apply list_elem_of_fmap in Hm as (u & Hu & Hin).
      by apply (violates_unique_false _ _ u Hv Hin).
  - split; [ by apply ids_issued_delete | ].
    unfold Django.delete. destruct (Django.get t k); cbn; [ | done ].
    split; by apply NoDup_fmap_filter.
Qed.

(** X9. In the model of the persisted variant driven by the declarations of
    [models.py], whatever creations and deletions are made starting from
    the empty table, succeeding or failing, no two saved users ever share
    an id or an email, and every id is below the next one to be issued. *)
Theorem saved_users_distinct (calls : list table_call) :
  NoDup (Django.id <$> Django.rows (table_after calls)) ∧
  NoDup (Django.email <$> Django.rows (table_after calls)) ∧
  Django.ids_issued (table_after calls).
Proof.
  cut (Django.ids_issued (table_after calls)
       ∧ NoDup (Django.id <$> Django.rows (table_after calls))
       ∧ NoDup (Django.email <$> Django.rows (table_after calls))); [ tauto | ].
  unfold table_after.
  induction calls as [ | c calls IH ] using rev_ind.
  - cbn. split; [ apply ids_issued_empty | split; apply NoDup_nil_2 ].
  - rewrite foldl_app. cbn. by apply table_invariant_step.
Qed.

Lemma find_filter_other (k j : Z) (l : list Django.User) :
  j ≠ k →
  find (λ u, bool_decide (Django.id u = j)) (filter (λ u, Django.id u ≠ k) l)
  = find (λ u, bool_decide (Django.id u = j)) l.
Proof.
  intros Hjk. induction l as [ | u l IH ]; [ done | ].
  rewrite filter_cons. destruct (decide (Django.id u ≠ k)) as [ Hne | Heq ]; cbn.
  - by rewrite IH.
  - rewrite IH, bool_decide_eq_false_2; [ done | ].
    intros Hj. apply Heq. congruence.
Qed.

Lemma find_filter_same (k : Z) (l : list Django.User) :
  find (λ u, bool_decide (Django.id u = k)) (filter (λ u, Django.id u ≠ k) l)
  = None.
Proof.
  induction l as [ | u l IH ]; [ done | ].
  rewrite filter_cons. destruct (decide (Django.id u ≠ k)) as [ Hne | Heq ]; cbn.
  - by rewrite bool_decide_eq_false_2.
  - exact IH.
Qed.

(** X10. In the model of the persisted variant, after a deletion by id, a
    look-up of that id finds nothing, and a look-up of any other id gives
    what it gave before; deleting an id that is not there fails with the
    not-found error and leaves the table as it was. *)
Theorem delete_then_get (t : Django.Table) (k : Z) :
  Django.get (Django.delete t k).1 k = Django.Err Django.NotFoundError ∧
  (∀ j : Z, j ≠ k → Django.get (Django.delete t k).1 j = Django.get t j) ∧
  (Django.get t k = Django.Err Django.NotFoundError →
   Django.delete t k = (t, Django.Err Django.NotFoundError)).
Proof.
  unfold Django.delete.
  destruct (Django.get t k) as [ u | e ] eqn:Hget; cbn.
  - split; [ | split; [ | done ] ].
    + unfold Django.get. cbn. by rewrite find_filter_same.
    + intros j Hj. unfold Django.get. cbn. by rewrite find_filter_other.
  - assert (e = Django.NotFoundError) as ->.
    { unfold Django.get in Hget. destruct (find _ _); congruence. }
    split; [ done | ]. split; [ done | ]. done.
Qed.

Lemma delete_then_get_witness :
  (1 : Z) ≠ 2 ∧
  Django.get (Django.delete two_saved 2).1 1 = Django.Ok first_user ∧
  Django.get (Django.delete two_saved 2).1 2 = Django.Err Django.NotFoundError.
Proof.
  split; [ done | ].
  destruct (delete_then_get two_saved 2) as (Hgone & Hother & _).
  split; [ | exact Hgone ].
  rewrite (Hother 1); [ reflexivity | done ].
Defined.

(** X11. In the model of the persisted variant, a user saved at an instant
    later than the creation of every saved user heads the listing: the
    newest record comes first. *)
Theorem newest_user_listed_first (t t' : Django.Table) (now : Z)
    (n e : string) (a : option Z) (u : Django.User) :
  Django.save t now n e a = (t', Django.Ok u) →
  Forall (λ v, Django.created_at v < now) (Django.rows t) →
  head (Django.objects_all t') = Some u.
Proof.
  intros Hsave Hold.
  destruct (save_ok_inv _ _ _ _ _ _ _ Hsave) as (Hu & Hrows & _).
  assert (Hnow : Django.created_at u = now) by (rewrite Hu; reflexivity).
  assert (Hperm : Django.objects_all t' ≡ₚ Django.rows t ++ [u]).
  { rewrite <- Hrows. unfold Django.objects_all. apply merge_sort_Permutation. }
  pose proof (objects_all_sorted t') as Hsorted.
  destruct (Django.objects_all t') as [ | h tl ].
  { apply Permutation_nil_l in Hperm. by destruct (Django.rows t). }
  cbn. f_equal.
  assert (Hh : h ∈ Django.rows t ++ [u]) by (rewrite <- Hperm; by left).
  apply elem_of_app in Hh as [ Hh | Hh ];
    [ | by apply list_elem_of_singleton in Hh ].
  exfalso.
  rewrite Forall_forall in Hold. specialize (Hold h Hh).
  assert (Hin : u ∈ h :: tl).
  { rewrite Hperm. apply elem_of_app. right. by left. }
  apply elem_of_cons in Hin as [ -> | Hin ]; [ lia | ].
  apply StronglySorted_inv in Hsorted as [_ Hall].
  rewrite Forall_forall in Hall. specialize (Hall u Hin). lia.
Qed.

Lemma newest_user_listed_first_witness :
  Django.save first_saved 20 "Bob" "bob@example.com" (Some 3)
    = (two_saved, Django.Ok second_user) ∧
  Forall (λ v, Django.created_at v < 20) (Django.rows first_saved) ∧
  head (Django.objects_all two_saved) = Some second_user.
Proof.
  assert (Hsave : Django.save first_saved 20 "Bob" "bob@example.com" (Some 3)
                  = (two_saved, Django.Ok second_user)) by reflexivity.
  assert (Hold : Forall (λ v, Django.created_at v < 20) (Django.rows first_saved)).
  { repeat constructor. }
  split; [ exact Hsave | ]. split; [ exact Hold | ].
  exact (newest_user_listed_first _ _ _ _ _ _ _ Hsave Hold).
Defined.

(** ** The dashboard *)

Lemma world_eq (w : Streamlit.World) (r d : nat) :
  r = Streamlit.reads w → d = Streamlit.draws w →
  {| Streamlit.reads := r; Streamlit.draws := d |} = w.
Proof. intros -> ->. by destruct w. Qed.

Lemma run_bind_ok {A B} (m : Streamlit.Run A) (k : A → Streamlit.Run B)
    (w w' : Streamlit.World) (a : A) :
  Streamlit.run m w = (Streamlit.Ok a, w') →
  Streamlit.run (m ≫= k) w = Streamlit.run (k a) w'.
Proof.
  intros H. unfold mbind, Streamlit.Run_bind. cbn [Streamlit.run]. by rewrite H.
Qed.

Lemma run_bind_raised {A B} (m : Streamlit.Run A) (k : A → Streamlit.Run B)
    (w w' : Streamlit.World) (e : Streamlit.error) :
  Streamlit.run m w = (Streamlit.Raised e, w') →
  Streamlit.run (m ≫= k) w = (Streamlit.Raised e, w').
Proof.
  intros H. unfold mbind, Streamlit.Run_bind. cbn [Streamlit.run]. by rewrite H.
Qed.

Lemma run_ret {A} (a : A) (w : Streamlit.World) :
  Streamlit.run (mret a) w = (Streamlit.Ok a, w).
Proof. reflexivity. Qed.

Lemma comprehension_cons {A B} (f : A → Streamlit.Run B) (x : A) (xs : list A) :
  Streamlit.comprehension f (x :: xs)
  = (y ← f x; ys ← Streamlit.comprehension f xs; mret (y :: ys)).
Proof. reflexivity. Qed.

(** A date is built exactly when the day count fits a [timedelta] and the
    result is a [datetime]. *)
Lemma date_at_ok (now x d : Z) :
  Streamlit.date_at now x = Streamlit.Ok d ↔
  d = now - x * 86400000000 ∧ -999999999 ≤ x ≤ 999999999
  ∧ 0 ≤ now - x * 86400000000 ≤ Streamlit.datetime_max.
Proof.
  unfold Streamlit.date_at, Streamlit.timedelta, Streamlit.datetime_sub.
  split.
  - intros Hd. case_bool_decide as H1; [ | discriminate Hd ].
    case_bool_decide as H2; [ | discriminate Hd ].
    injection Hd as <-. auto.
  - intros (-> & H1 & H2).
    rewrite (bool_decide_eq_true_2 _ H1). cbv iota beta.
    by rewrite (bool_decide_eq_true_2 _ H2).
Qed.

Lemma date_at_raised (now x : Z) (e : Streamlit.error) :
  Streamlit.date_at now x = Streamlit.Raised e → e = Streamlit.OverflowError.
Proof.
  unfold Streamlit.date_at, Streamlit.timedelta, Streamlit.datetime_sub.
  case_bool_decide as H1; [ | by intros [= <-] ].
  case_bool_decide as H2; [ discriminate | by intros [= <-] ].
Qed.

(** One round of the loop over the clock: one reading, then the date. *)
Lemma date_round (clock : nat → Z) (x : Z) (w : Streamlit.World) :
  Streamlit.run
    (now ← Streamlit.datetime_now clock;
     delta ← Streamlit.evaluate (Streamlit.timedelta x);
     Streamlit.evaluate (Streamlit.datetime_sub now delta)) w
  = (Streamlit.date_at (clock (Streamlit.reads w)) x,
     {| Streamlit.reads := S (Streamlit.reads w);
        Streamlit.draws := Streamlit.draws w |}).
Proof.
  unfold Streamlit.date_at, mbind, Streamlit.Run_bind. cbn.
  by destruct (Streamlit.timedelta x).
Qed.

(** The loop over the clock.  It draws no random number; when it returns,
    its [i]-th element is the date of the [i]-th reading after the ones
    already made, every one of them in range; when every date is in range
    it returns; and the only exception it raises is [OverflowError]. *)
Lemma comprehension_dates (clock : nat → Z) (xs : list Z) (w : Streamlit.World) :
  let loop :=
    Streamlit.comprehension
      (λ x, now ← Streamlit.datetime_now clock;
            delta ← Streamlit.evaluate (Streamlit.timedelta x);
            Streamlit.evaluate (Streamlit.datetime_sub now delta)) xs in
  ((∀ i x, xs !! i = Some x →
           ∃ d, Streamlit.date_at (clock (Streamlit.reads w + i)%nat) x
                = Streamlit.Ok d) →
   Streamlit.run loop w
   = (Streamlit.Ok
        (imap (λ i x, clock (Streamlit.reads w + i)%nat - x * 86400000000) xs),
      {| Streamlit.reads := Streamlit.reads w + length xs;
         Streamlit.draws := Streamlit.draws w |})) ∧
  (∀ ds w', Streamlit.run loop w = (Streamlit.Ok ds, w') →
            ∀ i x, xs !! i = Some x →
                   ∃ d, Streamlit.date_at (clock (Streamlit.reads w + i)%nat) x
                        = Streamlit.Ok d) ∧
  (∀ e w', Streamlit.run loop w = (Streamlit.Raised e, w') →
           e = Streamlit.OverflowError
           ∧ Streamlit.draws w' = Streamlit.draws w).
Proof.
  cbn zeta. revert w. induction xs as [ | x xs IH ]; intros w.
  - split; [ | split ].
    + intros _. cbn. f_equal. symmetry. apply world_eq; cbn; lia.
    + intros ds w' _ i y Hy. discriminate Hy.
    + intros e w' H. discriminate H.
  - rewrite comprehension_cons.
    pose proof (date_round clock x w) as Hround.
    set (w1 := {| Streamlit.reads := S (Streamlit.reads w);
                  Streamlit.draws := Streamlit.draws w |}) in *.
    destruct (IH w1) as (IHok & IHinv & IHraise).
    destruct (Streamlit.date_at (clock (Streamlit.reads w)) x) as [ d | e ] eqn:Hd.
    + rewrite (run_bind_ok _ _ _ _ _ Hround).
      apply date_at_ok in Hd as Hd'. destruct Hd' as (-> & _).
      split; [ | split ].
      * intros Hall.
        assert (Hrest : ∀ i y, xs !! i = Some y →
                  ∃ d, Streamlit.date_at (clock (Streamlit.reads w1 + i)%nat) y
                       = Streamlit.Ok d).
        { intros i y Hy. destruct (Hall (S i) y Hy) as [d Hd'].
          exists d. rewrite <- Hd'. cbn. do 2 f_equal. lia. }
        rewrite (run_bind_ok _ _ _ _ _ (IHok Hrest)), run_ret.
        rewrite imap_cons. f_equal.
        -- f_equal. f_equal; [ do 2 f_equal; lia | ].
           apply imap_ext. intros i y _. cbn. do 2 f_equal. lia.
        -- cbn. f_equal. lia.
      * intros ds w' Hrun i y Hy.
        destruct (Streamlit.run (Streamlit.comprehension _ xs) w1)
          as [[ds' | e] w2] eqn:Hrest.
        -- destruct i as [ | i ].
           ++ injection Hy as <-. rewrite Nat.add_0_r. eauto.
           ++ destruct (IHinv _ _ eq_refl i y Hy) as [d Hd'].
              exists d. rewrite <- Hd'. cbn. do 2 f_equal. lia.
        -- rewrite (run_bind_raised _ _ _ _ _ Hrest) in Hrun. discriminate Hrun.
      * intros e w' Hrun.
        destruct (Streamlit.run (Streamlit.comprehension _ xs) w1)
          as [[ds' | e'] w2] eqn:Hrest.
        -- rewrite (run_bind_ok _ _ _ _ _ Hrest), run_ret in Hrun.
           discriminate Hrun.
        -- rewrite (run_bind_raised _ _ _ _ _ Hrest) in Hrun.
           injection Hrun as <- <-. exact (IHraise _ _ eq_refl).
    + rewrite (run_bind_raised _ _ _ _ _ Hround).
      split; [ | split ].
      * intros Hall. destruct (Hall 0%nat x eq_refl) as [d Hd'].
        rewrite Nat.add_0_r in Hd'. congruence.
      * intros ds w' Hrun. discriminate Hrun.
      * intros e' w' Hrun. injection Hrun as <- <-.
        split; [ by apply date_at_raised in Hd | reflexivity ].
Qed.

(** The loops over the generator always return. *)
Lemma comprehension_randint (generator : nat → Z → Z → Z) (a b : Z)
    (xs : list Z) (w : Streamlit.World) :
  Streamlit.run
    (Streamlit.comprehension (λ _, Streamlit.randint generator a b) xs) w
  = (Streamlit.Ok (imap (λ i _, generator (Streamlit.draws w + i)%nat a b) xs),
     {| Streamlit.reads := Streamlit.reads w;
        Streamlit.draws := Streamlit.draws w + length xs |}).
Proof.
  revert w. induction xs as [ | x xs IH ]; intros w.
  - cbn. f_equal. symmetry. apply world_eq; cbn; lia.
  - rewrite comprehension_cons.
    rewrite (run_bind_ok (Streamlit.randint generator a b) _ w _ _ eq_refl).
    rewrite (run_bind_ok _ _ _ _ _ (IH _)), run_ret.
    cbn [Streamlit.reads Streamlit.draws length].
    rewrite imap_cons. f_equal.
    + f_equal. f_equal; [ f_equal; lia | ].
      apply imap_ext. intros i y _. cbn. f_equal. lia.
    + f_equal. lia.
Qed.

Lemma length_range (n : Z) : length (Streamlit.range n) = Z.to_nat n.
Proof. apply length_seqZ. Qed.

Lemma range_lookup (n : Z) (i : nat) (x : Z) :
  Streamlit.range n !! i = Some x ↔ x = Z.of_nat i ∧ (i < Z.to_nat n)%nat.
Proof.
  unfold Streamlit.range. rewrite lookup_seqZ. split; intros [-> H]; split; lia.
Qed.

(** What is left of [generate_data] once the dates are there. *)
Lemma generate_data_after_dates (clock : nat → Z) (generator : nat → Z → Z → Z)
    (n : Z) (w w1 : Streamlit.World) (dates : list Z) :
  Streamlit.run
    (Streamlit.comprehension
       (λ x, now ← Streamlit.datetime_now clock;
             delta ← Streamlit.evaluate (Streamlit.timedelta x);
             Streamlit.evaluate (Streamlit.datetime_sub now delta))
       (Streamlit.range n)) w = (Streamlit.Ok dates, w1) →
  length dates = Z.to_nat n →
  Streamlit.run (Streamlit.generate_data clock generator n) w
  = (Streamlit.Ok
       {| Streamlit.Date := reverse dates;
          Streamlit.Sales :=
            imap (λ i _, generator (Streamlit.draws w1 + i)%nat 100 1000)
                 (Streamlit.range n);
          Streamlit.Revenue :=
            imap (λ i _, generator (Streamlit.draws w1 + Z.to_nat n + i)%nat 5000 20000)
                 (Streamlit.range n);
          Streamlit.Customers :=
            imap (λ i _, generator (Streamlit.draws w1 + Z.to_nat n + Z.to_nat n + i)%nat 10 100)
                 (Streamlit.range n) |},
     {| Streamlit.reads := Streamlit.reads w1;
        Streamlit.draws := Streamlit.draws w1 + 3 * Z.to_nat n |}).
Proof.
  intros Hdates Hlen. unfold Streamlit.generate_data.
  rewrite (run_bind_ok _ _ _ _ _ Hdates).
  rewrite (run_bind_ok _ _ _ _ _ (comprehension_randint _ _ _ _ _)).
  rewrite (run_bind_ok _ _ _ _ _ (comprehension_randint _ _ _ _ _)).
  rewrite (run_bind_ok _ _ _ _ _ (comprehension_randint _ _ _ _ _)).
  cbn [Streamlit.reads Streamlit.draws]. rewrite !length_range.
  unfold Streamlit.evaluate, Streamlit.DataFrame_. cbn [Streamlit.run].
  rewrite bool_decide_eq_true_2
    by (rewrite length_reverse, !length_imap, length_range; lia).
  f_equal. f_equal. lia.
Qed.

(** The frame [generate_data] builds when every date is in range. *)
Lemma generate_data_run (clock : nat → Z) (generator : nat → Z → Z → Z)
    (n : Z) (w : Streamlit.World) :
  (∀ i : nat, (i < Z.to_nat n)%nat →
     ∃ d, Streamlit.date_at (clock (Streamlit.reads w + i)%nat) (Z.of_nat i)
          = Streamlit.Ok d) →
  Streamlit.run (Streamlit.generate_data clock generator n) w
  = (Streamlit.Ok
       {| Streamlit.Date :=
            reverse (imap (λ i x, clock (Streamlit.reads w + i)%nat
                                  - x * 86400000000)
                          (Streamlit.range n));
          Streamlit.Sales :=
            imap (λ i _, generator (Streamlit.draws w + i)%nat 100 1000)
                 (Streamlit.range n);
          Streamlit.Revenue :=
            imap (λ i _, generator (Streamlit.draws w + Z.to_nat n + i)%nat 5000 20000)
                 (Streamlit.range n);
          Streamlit.Customers :=
            imap (λ i _, generator (Streamlit.draws w + Z.to_nat n + Z.to_nat n + i)%nat 10 100)
                 (Streamlit.range n) |},
     {| Streamlit.reads := Streamlit.reads w + Z.to_nat n;
        Streamlit.draws := Streamlit.draws w + 3 * Z.to_nat n |}).
Proof.
  intros Hall.
  destruct (comprehension_dates clock (Streamlit.range n) w) as (Hok & _ & _).
  cbn zeta in Hok.
  assert (Hdates : ∀ i x, Streamlit.range n !! i = Some x →
            ∃ d, Streamlit.date_at (clock (Streamlit.reads w + i)%nat) x
                 = Streamlit.Ok d).
  { intros i x Hx. apply range_lookup in Hx as [-> Hi]. by apply Hall. }
  rewrite (generate_data_after_dates _ _ _ _ _ _ (Hok Hdates)).
  - cbn [Streamlit.reads Streamlit.draws]. by rewrite length_range.
  - by rewrite length_imap, length_range.
Qed.

(** When [generate_data] returns a frame, it is that frame, and every date
    was in range. *)
Lemma generate_data_inv (clock : nat → Z) (generator : nat → Z → Z → Z)
    (n : Z) (w w' : Streamlit.World) (df : Streamlit.DataFrame) :
  Streamlit.run (Streamlit.generate_data clock generator n) w
    = (Streamlit.Ok df, w') →
  (∀ i : nat, (i < Z.to_nat n)%nat →
     ∃ d, Streamlit.date_at (clock (Streamlit.reads w + i)%nat) (Z.of_nat i)
          = Streamlit.Ok d) ∧
  Streamlit.run (Streamlit.generate_data clock generator n) w
  = (Streamlit.Ok
       {| Streamlit.Date :=
            reverse (imap (λ i x, clock (Streamlit.reads w + i)%nat
                                  - x * 86400000000)
                          (Streamlit.range n));
          Streamlit.Sales :=
            imap (λ i _, generator (Streamlit.draws w + i)%nat 100 1000)
                 (Streamlit.range n);
          Streamlit.Revenue :=
            imap (λ i _, generator (Streamlit.draws w + Z.to_nat n + i)%nat 5000 20000)
                 (Streamlit.range n);
          Streamlit.Customers :=
            imap (λ i _, generator (Streamlit.draws w + Z.to_nat n + Z.to_nat n + i)%nat 10 100)
                 (Streamlit.range n) |},
     {| Streamlit.reads := Streamlit.reads w + Z.to_nat n;
        Streamlit.draws := Streamlit.draws w + 3 * Z.to_nat n |}).
Proof.
  intros Hrun.
  destruct (comprehension_dates clock (Streamlit.range n) w) as (_ & Hinv & _).
  cbn zeta in Hinv.
  assert (Hall : ∀ i : nat, (i < Z.to_nat n)%nat →
            ∃ d, Streamlit.date_at (clock (Streamlit.reads w + i)%nat) (Z.of_nat i)
                 = Streamlit.Ok d).
  { destruct (Streamlit.run
                (Streamlit.comprehension
                   (λ x, now ← Streamlit.datetime_now clock;
                         delta ← Streamlit.evaluate (Streamlit.timedelta x);
                         Streamlit.evaluate (Streamlit.datetime_sub now delta))
                   (Streamlit.range n)) w) as [[dates | e] w1] eqn:Hdates.
    - intros i Hi. apply (Hinv _ _ eq_refl i (Z.of_nat i)).
      by apply range_lookup.
    - unfold Streamlit.generate_data in Hrun.
      rewrite (run_bind_raised _ _ _ _ _ Hdates) in Hrun. discriminate Hrun. }
  split; [ exact Hall | by apply generate_data_run ].
Qed.


Lemma sample_dates_in_range (n : Z) (i : nat) :
  n ≤ 10 → (i < Z.to_nat n)%nat →
  ∃ d, Streamlit.date_at (sample_clock (Streamlit.reads fresh_world + i)%nat)
                         (Z.of_nat i) = Streamlit.Ok d.
Proof.
  intros Hn Hi. eexists. apply date_at_ok. split; [ reflexivity | ].
  unfold sample_clock, Streamlit.datetime_max, fresh_world.
  cbn [Streamlit.reads Nat.add]. lia.
Qed.



Lemma Forall_imap_index {A B} (P : B → Prop) (g : nat → B) (xs : list A) :
  (∀ i, P (g i)) → Forall P (imap (λ i _, g i) xs).
Proof.
  intros Hg. apply Forall_forall. intros y Hy.
  apply list_elem_of_lookup in Hy as [i Hi].
  rewrite list_lookup_imap in Hi.
  destruct (xs !! i); [ | discriminate Hi ]. injection Hi as <-. apply Hg.
Qed.

(** X13. Given that [random.randint(a, b)] returns a number between [a] and
    [b], every generated Sales value lies between 100 and 1000, every
    Revenue value between 5000 and 20000 and every Customers value between
    10 and 100. *)
Theorem generated_values_in_range (clock : nat → Z)
    (generator : nat → Z → Z → Z) (n : Z) (w w' : Streamlit.World)
    (df : Streamlit.DataFrame) :
  (∀ k a b, a ≤ b → a ≤ generator k a b ≤ b) →
  Streamlit.run (Streamlit.generate_data clock generator n) w
    = (Streamlit.Ok df, w') →
  Forall (λ v, 100 ≤ v ≤ 1000) (Streamlit.Sales df) ∧
  Forall (λ v, 5000 ≤ v ≤ 20000) (Streamlit.Revenue df) ∧
  Forall (λ v, 10 ≤ v ≤ 100) (Streamlit.Customers df).
Proof.
  intros Hgen Hrun.
  destruct (generate_data_inv _ _ _ _ _ _ Hrun) as [_ Hrun'].
  rewrite Hrun in Hrun'. injection Hrun' as -> _. cbn.
  repeat split;
    apply (Forall_imap_index _ (λ i, generator _ _ _)); intros i;
    apply Hgen; lia.
Qed.

Lemma sample_generator_in_range (k : nat) (a b : Z) :
  a ≤ b → a ≤ sample_generator k a b ≤ b.
Proof.
  intros Hab. unfold sample_generator.
  pose proof (Z.mod_pos_bound (Z.of_nat k * 7919) (b - a + 1)). lia.
Qed.

Lemma generated_values_in_range_witness :
  ∃ df w',
    Streamlit.run (Streamlit.generate_data sample_clock sample_generator 3)
                  fresh_world = (Streamlit.Ok df, w') ∧
    Streamlit.Sales df = [100; 811; 621] ∧
    Forall (λ v, 100 ≤ v ≤ 1000) (Streamlit.Sales df).
Proof.
  pose proof (generate_data_run sample_clock sample_generator 3 fresh_world
                (λ i, sample_dates_in_range 3 i ltac:(lia))) as Hrun.
  eexists _, _. split; [ exact Hrun | ].
  split; [ vm_compute; reflexivity | ].
  eapply (generated_values_in_range sample_clock sample_generator 3 fresh_world).
  - apply sample_generator_in_range.
  - exact Hrun.
Defined.

Lemma foldr_add_bounds (lo hi : Z) (l : list Z) :
  Forall (λ v, lo ≤ v ≤ hi) l →
  lo * Z.of_nat (length l) ≤ foldr Z.add 0 l ≤ hi * Z.of_nat (length l).
Proof.
  induction 1 as [ | v l Hv _ IH ]; cbn [foldr length]; lia.
Qed.

Lemma int64_small (z : Z) : - 2 ^ 63 ≤ z < 2 ^ 63 → Streamlit.int64 z = z.
Proof.
  intros Hz. unfold Streamlit.int64. rewrite Z.mod_small; lia.
Qed.

(** X14. For every size the slider can give (10 to 100), and given the
    contract of [random.randint], the 64-bit sums behind the Total Sales
    and Total Revenue figures do not wrap around: each is the exact sum of
    its column, between 100 and 1000 times the number of rows for Sales and
    between 5000 and 20000 times for Revenue. *)
Theorem totals_exact (clock : nat → Z) (generator : nat → Z → Z → Z)
    (n : Z) (w w' : Streamlit.World) (df : Streamlit.DataFrame) :
  (∀ k a b, a ≤ b → a ≤ generator k a b ≤ b) →
  Streamlit.slider_min ≤ n ≤ Streamlit.slider_max →
  Streamlit.run (Streamlit.generate_data clock generator n) w
    = (Streamlit.Ok df, w') →
  Streamlit.sum (Streamlit.Sales df) = foldr Z.add 0 (Streamlit.Sales df) ∧
  100 * n ≤ Streamlit.sum (Streamlit.Sales df) ≤ 1000 * n ∧
  Streamlit.sum (Streamlit.Revenue df) = foldr Z.add 0 (Streamlit.Revenue df) ∧
  5000 * n ≤ Streamlit.sum (Streamlit.Revenue df) ≤ 20000 * n.
Proof.
  unfold Streamlit.slider_min, Streamlit.slider_max. intros Hgen Hn Hrun.
  destruct (generate_data_inv _ _ _ _ _ _ Hrun) as [_ Hrun'].
  rewrite Hrun in Hrun'. injection Hrun' as -> _.
  cbn [Streamlit.Sales Streamlit.Revenue].
  set (sales := imap _ _). set (revenue := imap _ _).
  assert (Hs : Forall (λ v, 100 ≤ v ≤ 1000) sales).
  { apply (Forall_imap_index _ (λ i, generator _ _ _)). intros i.
    apply Hgen. lia. }
  assert (Hr : Forall (λ v, 5000 ≤ v ≤ 20000) revenue).
  { apply (Forall_imap_index _ (λ i, generator _ _ _)). intros i.
    apply Hgen. lia. }
  apply foldr_add_bounds in Hs, Hr.
  assert (Hls : Z.of_nat (length sales) = n).
  { unfold sales. rewrite length_imap, length_range. lia. }
  assert (Hlr : Z.of_nat (length revenue) = n).
  { unfold revenue. rewrite length_imap, length_range. lia. }
  rewrite Hls in Hs. rewrite Hlr in Hr.
  unfold Streamlit.sum. rewrite !int64_small by lia. lia.
Qed.

Lemma totals_exact_witness :
  ∃ df w',
    Streamlit.run (Streamlit.generate_data sample_clock sample_generator 10)
                  fresh_world = (Streamlit.Ok df, w') ∧
    Streamlit.slider_min ≤ 10 ≤ Streamlit.slider_max ∧
    100 * 10 ≤ Streamlit.sum (Streamlit.Sales df) ≤ 1000 * 10.
Proof.
  pose proof (generate_data_run sample_clock sample_generator 10 fresh_world
                (λ i, sample_dates_in_range 10 i ltac:(lia))) as Hrun.
  eexists _, _. split; [ exact Hrun | ].
  assert (Hn : Streamlit.slider_min ≤ 10 ≤ Streamlit.slider_max)
    by (unfold Streamlit.slider_min, Streamlit.slider_max; lia).
  split; [ exact Hn | ].
  eapply (totals_exact sample_clock sample_generator 10 fresh_world).
  - apply sample_generator_in_range.
  - exact Hn.
  - exact Hrun.
Defined.

(** The date built in round [j] of the loop that started at reading [r]. *)
Lemma date_lookup (clock : nat → Z) (r : nat) (n : Z) (i : nat) :
  (i < Z.to_nat n)%nat →
  reverse (imap (λ j x, clock (r + j)%nat - x * 86400000000)
                (Streamlit.range n)) !! i
  = Some (clock (r + (Z.to_nat n - S i))%nat
          - Z.of_nat (Z.to_nat n - S i) * 86400000000).
Proof.
  intros Hi.
  rewrite reverse_lookup by (rewrite length_imap, length_range; done).
  rewrite length_imap, length_range, list_lookup_imap.
  unfold Streamlit.range. rewrite lookup_seqZ_lt by lia. reflexivity.
Qed.

Lemma dates_decrease (clock : nat → Z) (r i j : nat) :
  (∀ k, clock (S k) - clock k < 86400000000) →
  (i < j)%nat →
  clock (r + j)%nat - Z.of_nat j * 86400000000
  < clock (r + i)%nat - Z.of_nat i * 86400000000.
Proof.
  intros Hstep Hij.
  induction Hij as [ | j Hij IH ].
  - specialize (Hstep (r + i)%nat).
    replace (r + S i)%nat with (S (r + i)) by lia. lia.
  - specialize (Hstep (r + j)%nat).
    replace (r + S j)%nat with (S (r + j)) by lia. lia.
Qed.

(** X15. When two successive readings of the clock are always less than a
    day apart, the Date column comes out in strictly ascending order, one
    row per day step, and its last row is the first reading taken: the
    frame runs from the oldest day to now. *)
Theorem dates_ascending (clock : nat → Z) (generator : nat → Z → Z → Z)
    (n : Z) (w w' : Streamlit.World) (df : Streamlit.DataFrame) :
  (∀ k, clock (S k) - clock k < 86400000000) →
  Streamlit.run (Streamlit.generate_data clock generator n) w
    = (Streamlit.Ok df, w') →
  (∀ (i j : nat) (a b : Z),
     (i < j)%nat →
     Streamlit.Date df !! i = Some a → Streamlit.Date df !! j = Some b →
     a < b) ∧
  (0 < n → last (Streamlit.Date df) = Some (clock (Streamlit.reads w))).
Proof.
  intros Hstep Hrun.
  destruct (generate_data_inv _ _ _ _ _ _ Hrun) as [_ Hrun'].
  rewrite Hrun in Hrun'. injection Hrun' as -> _. cbn [Streamlit.Date]. split.
  - intros i j a b Hij Ha Hb.
    assert (Hj : (j < Z.to_nat n)%nat).
    { apply lookup_lt_Some in Hb.
      by rewrite length_reverse, length_imap, length_range in Hb. }
    rewrite date_lookup in Ha by lia. rewrite date_lookup in Hb by lia.
    injection Ha as <-. injection Hb as <-.
    apply dates_decrease; [ exact Hstep | lia ].
  - intros Hn. rewrite last_lookup, length_reverse, length_imap, length_range.
    rewrite date_lookup by lia.
    replace (Z.to_nat n - S (pred (Z.to_nat n)))%nat with 0%nat by lia.
    rewrite Nat.add_0_r. f_equal. lia.
Qed.

Lemma dates_ascending_witness :
  (∀ k, sample_clock (S k) - sample_clock k < 86400000000) ∧
  ∃ df w',
    Streamlit.run (Streamlit.generate_data sample_clock sample_generator 3)
                  fresh_world = (Streamlit.Ok df, w') ∧
    Streamlit.Date df = [827200000014; 913600000007; 1000000000000] ∧
    last (Streamlit.Date df) = Some (sample_clock 0).
Proof.
  assert (Hstep : ∀ k, sample_clock (S k) - sample_clock k < 86400000000)
    by (intros k; unfold sample_clock; lia).
  pose proof (generate_data_run sample_clock sample_generator 3 fresh_world
                (λ i, sample_dates_in_range 3 i ltac:(lia))) as Hrun.
  split; [ exact Hstep | ].
  eexists _, _. split; [ exact Hrun | ].
  split; [ vm_compute; reflexivity | ].
  apply (proj2 (dates_ascending sample_clock sample_generator 3 fresh_world
                  _ _ Hstep Hrun)).
  lia.
Defined.

Lemma iloc_from_end (series : list Z) (i : Z) :
  - Z.of_nat (length series) ≤ i < 0 →
  ∃ v, Streamlit.iloc series i = Streamlit.Ok v.
Proof.
  intros Hi. unfold Streamlit.iloc. cbv zeta.
  rewrite (bool_decide_eq_true_2 (i < 0)) by lia. cbv iota.
  rewrite bool_decide_eq_true_2 by lia.
  destruct (series !! Z.to_nat (Z.of_nat (length series) + i)) as [ v | ] eqn:Hv.
  - by exists v.
  - apply lookup_ge_None in Hv. lia.
Qed.

Lemma sales_metric_ok (df : Streamlit.DataFrame) :
  (2 ≤ length (Streamlit.Sales df))%nat →
  ∃ m, Streamlit.sales_metric df = Streamlit.Ok m.
Proof.
  intros Hlen. unfold Streamlit.sales_metric.
  destruct (iloc_from_end (Streamlit.Sales df) (-1)) as (v1 & ->); [ lia | ].
  destruct (iloc_from_end (Streamlit.Sales df) (-2)) as (v2 & ->); [ lia | ].
  by eexists.
Qed.

Lemma revenue_metric_ok (df : Streamlit.DataFrame) :
  (2 ≤ length (Streamlit.Revenue df))%nat →
  ∃ m, Streamlit.revenue_metric df = Streamlit.Ok m.
Proof.
  intros Hlen. unfold Streamlit.revenue_metric.
  destruct (iloc_from_end (Streamlit.Revenue df) (-1)) as (v1 & ->); [ lia | ].
  destruct (iloc_from_end (Streamlit.Revenue df) (-2)) as (v2 & ->); [ lia | ].
  by eexists.
Qed.

Lemma sales_metric_short (df : Streamlit.DataFrame) :
  (length (Streamlit.Sales df) < 2)%nat →
  Streamlit.sales_metric df = Streamlit.Raised Streamlit.IndexError.
Proof.
  intros Hlen. unfold Streamlit.sales_metric.
  destruct (Streamlit.Sales df) as [ | v [ | v' l ] ] eqn:E; cbn in Hlen;
    [ reflexivity | reflexivity | lia ].
Qed.

Lemma revenue_metric_short (df : Streamlit.DataFrame) :
  (length (Streamlit.Revenue df) < 2)%nat →
  Streamlit.revenue_metric df = Streamlit.Raised Streamlit.IndexError.
Proof.
  intros Hlen. unfold Streamlit.revenue_metric.
  destruct (Streamlit.Revenue df) as [ | v [ | v' l ] ] eqn:E; cbn in Hlen;
    [ reflexivity | reflexivity | lia ].
Qed.

(** X16. The slider keeps the metrics out of trouble: on the frame that
    [generate_data] returns for a size the slider can give (10 to 100) there
    are at least two rows, so the Total Sales and Total Revenue metrics,
    which read the last two rows, are computed, and the Data Points metric
    shows that size. On the frame returned for a size below 2 the same
    metric code fails with [IndexError]. *)
Theorem metrics_within_slider (clock : nat → Z) (generator : nat → Z → Z → Z)
    (n : Z) (w w' : Streamlit.World) (df : Streamlit.DataFrame) :
  Streamlit.run (Streamlit.generate_data clock generator n) w
    = (Streamlit.Ok df, w') →
  (Streamlit.slider_min ≤ n ≤ Streamlit.slider_max →
   (∃ m, Streamlit.sales_metric df = Streamlit.Ok m) ∧
   (∃ m, Streamlit.revenue_metric df = Streamlit.Ok m) ∧
   Streamlit.value_ (Streamlit.data_points_metric df) = VInt n) ∧
  (n < 2 →
   Streamlit.sales_metric df = Streamlit.Raised Streamlit.IndexError ∧
   Streamlit.revenue_metric df = Streamlit.Raised Streamlit.IndexError).
Proof.
  intros Hrun.
  destruct (generate_data_inv _ _ _ _ _ _ Hrun) as [_ Hrun'].
  rewrite Hrun in Hrun'. injection Hrun' as -> _.
  unfold Streamlit.slider_min, Streamlit.slider_max. split.
  - intros Hn. split; [ | split ].
    + apply sales_metric_ok. cbn. rewrite length_imap, length_range. lia.
    + apply revenue_metric_ok. cbn. rewrite length_imap, length_range. lia.
    + unfold Streamlit.data_points_metric, Streamlit.len. cbn.
      rewrite length_reverse, length_imap, length_range. f_equal. lia.
  - intros Hn. split.
    + apply sales_metric_short. cbn. rewrite length_imap, length_range. lia.
    + apply revenue_metric_short. cbn. rewrite length_imap, length_range. lia.
Qed.

Lemma metrics_within_slider_witness :
  Streamlit.slider_min ≤ 10 ≤ Streamlit.slider_max ∧
  ∃ df w',
    Streamlit.run (Streamlit.generate_data sample_clock sample_generator 10)
                  fresh_world = (Streamlit.Ok df, w') ∧
    ∃ m, Streamlit.sales_metric df = Streamlit.Ok m.
Proof.
  assert (Hn : Streamlit.slider_min ≤ 10 ≤ Streamlit.slider_max)
    by (unfold Streamlit.slider_min, Streamlit.slider_max; lia).
  split; [ exact Hn | ].
  pose proof (generate_data_run sample_clock sample_generator 10 fresh_world
                (λ i, sample_dates_in_range 10 i ltac:(lia))) as Hrun.
  eexists _, _. split; [ exact Hrun | ].
  exact (proj1 (proj1 (metrics_within_slider _ _ _ _ _ _ Hrun) Hn)).
Defined.

(** X17. Whatever the chart type, the figure reads only columns the frame
    has, so the plotting call is never handed a missing column. Each of the
    four choices of the select box draws its own kind of plot, and any other
    string draws the area chart of the last branch. *)
Theorem figure_reads_frame_columns (chart_type : string) :
  Forall (λ column, column ∈ Streamlit.columns)
         (Streamlit.figure_columns (Streamlit.figure chart_type)) ∧
  (Streamlit.plot_ ∘ Streamlit.figure) <$> Streamlit.chart_types
    = [Streamlit.px_line; Streamlit.px_bar; Streamlit.px_scatter;
       Streamlit.px_area] ∧
  (chart_type ≠ "Line" → chart_type ≠ "Bar" → chart_type ≠ "Scatter" →
   Streamlit.figure chart_type = Streamlit.figure "Area").
Proof.
  split; [ | split; [ reflexivity | ] ].
  - unfold Streamlit.figure.
    repeat case_bool_decide; cbn;
      repeat apply Forall_cons_2; try apply Forall_nil_2;
      apply list_elem_of_In; cbn; tauto.
  - intros H1 H2 H3. unfold Streamlit.figure.
    by rewrite !bool_decide_eq_false_2 by done.
Qed.

Lemma figure_reads_frame_columns_witness :
  Streamlit.figure "Pie" = Streamlit.figure "Area" ∧
  Streamlit.figure_columns (Streamlit.figure "Scatter")
    = ["Sales"; "Revenue"; "Customers"].
Proof.
  split; [ | reflexivity ].
  apply (proj2 (proj2 (figure_reads_frame_columns "Pie"))); discriminate.
Defined.

Lemma filter_all {A} (P : A → Prop) `{∀ x, Decision (P x)} (l : list A) :
  Forall P l → filter P l = l.
Proof.
  induction 1 as [ | x l Hx _ IH ]; [ done | ].
  by rewrite filter_cons_True, IH.
Qed.

Lemma group3_strip_bounded (n : nat) (l : list ascii) :
  (length l ≤ n)%nat →
  Forall (λ c, c ≠ ","%char) l →
  filter (λ c, c ≠ ","%char) (Streamlit.group3 l) = l.
Proof.
  revert l. induction n as [ n IH ] using lt_wf_ind. intros l Hlen Hl.
  destruct l as [ | a [ | b [ | c [ | d rest ] ] ] ];
    try (by apply filter_all).
  change (Streamlit.group3 (a :: b :: c :: d :: rest))
    with (a :: b :: c :: ","%char :: Streamlit.group3 (d :: rest)).
  apply Forall_cons in Hl as [Ha Hl]. apply Forall_cons in Hl as [Hb Hl].
  apply Forall_cons in Hl as [Hc Hl].
  rewrite !filter_cons_True by done.
  rewrite filter_cons_False by (intros H; by apply H).
  rewrite (IH (length (d :: rest))); [ done | cbn in *; lia | done | done ].
Qed.

Lemma pretty_N_go_chars (Q : ascii → Prop) (x : N) (s : string) :
  (∀ d, Q (pretty_N_char d)) →
  Forall Q (String.list_ascii_of_string s) →
  Forall Q (String.list_ascii_of_string (pretty_N_go x s)).
Proof.
  intros HQ. revert s. induction (N.lt_wf_0 x) as [ x _ IH ]; intros s Hs.
  assert (x = 0 ∨ 0 < x)%N as [ -> | Hx ] by lia.
  - by rewrite pretty_N_go_0.
  - rewrite pretty_N_go_step by done. apply IH.
    + apply N.div_lt; lia.
    + cbn. by constructor.
Qed.

Lemma pretty_N_char_not_comma (d : N) : pretty_N_char d ≠ ","%char.
Proof.
  unfold pretty_N_char. destruct d as [ | p ]; [ done | ].
  destruct p as [ p | p | ]; try done;
    destruct p as [ p | p | ]; try done;
    destruct p as [ p | p | ]; try done;
    destruct p as [ p | p | ]; done.
Qed.

Lemma pretty_abs_digits (z : Z) :
  Forall (λ c, c ≠ ","%char) (String.list_ascii_of_string (pretty (Z.abs z))).
Proof.
  destruct z as [ | p | p ]; cbn [Z.abs].
  - repeat constructor. done.
  - change (pretty (Z.pos p)) with (pretty_N_go (N.pos p) "").
    apply pretty_N_go_chars; [ apply pretty_N_char_not_comma | constructor ].
  - change (pretty (Z.pos p)) with (pretty_N_go (N.pos p) "").
    apply pretty_N_go_chars; [ apply pretty_N_char_not_comma | constructor ].
Qed.

Lemma strip_grouped_digits (s : string) :
  Forall (λ c, c ≠ ","%char) (String.list_ascii_of_string s) →
  strip_commas
    (String.string_of_list_ascii
       (reverse (Streamlit.group3 (reverse (String.list_ascii_of_string s))))) = s.
Proof.
  intros Hs. unfold strip_commas.
  rewrite String.list_ascii_of_string_of_list_ascii, filter_reverse.
  rewrite (group3_strip_bounded _ _ (le_n _)) by by apply Forall_reverse.
  by rewrite reverse_involutive, String.string_of_list_ascii_of_string.
Qed.

(** Taking the commas out of a grouped number gives back its decimal
    digits, sign included. *)
Lemma format_grouped_strip (z : Z) :
  strip_commas (Streamlit.format_grouped z) = pretty z.
Proof.
  unfold Streamlit.format_grouped.
  destruct z as [ | p | p ].
  - reflexivity.
  - rewrite bool_decide_eq_false_2 by lia.
    change ("" +:+ ?s) with s.
    apply (strip_grouped_digits (pretty (Z.abs (Z.pos p)))), pretty_abs_digits.
  - rewrite bool_decide_eq_true_2 by lia.
    pose proof (strip_grouped_digits _ (pretty_abs_digits (Z.neg p))) as H.
    unfold strip_commas in *.
    change (String.list_ascii_of_string ("-" +:+ ?s))
      with ("-"%char :: String.list_ascii_of_string s).
    rewrite filter_cons_True by done.
    cbn [String.string_of_list_ascii]. rewrite H. reflexivity.
Qed.

(** X19. The figures shown for Total Sales and Total Revenue read back as
    the sums: with the thousands separators (and, for revenue, the leading
    dollar sign) taken away, the text is the decimal form of the column's
    sum. *)
Theorem totals_text_reads_back (df : Streamlit.DataFrame) (m : Streamlit.Metric) :
  (Streamlit.sales_metric df = Streamlit.Ok m →
   ∃ text : string,
     Streamlit.value_ m = VStr text ∧
     strip_commas text = pretty (Streamlit.sum (Streamlit.Sales df))) ∧
  (Streamlit.revenue_metric df = Streamlit.Ok m →
   ∃ text : string,
     Streamlit.value_ m = VStr ("$" +:+ text) ∧
     strip_commas text = pretty (Streamlit.sum (Streamlit.Revenue df))).
Proof.
  split.
  - unfold Streamlit.sales_metric.
    destruct (Streamlit.iloc _ (-1)); [ | discriminate ].
    destruct (Streamlit.iloc _ (-2)); [ | discriminate ].
    intros [= <-]. eexists. split; [ reflexivity | apply format_grouped_strip ].
  - unfold Streamlit.revenue_metric.
    destruct (Streamlit.iloc _ (-1)); [ | discriminate ].
    destruct (Streamlit.iloc _ (-2)); [ | discriminate ].
    intros [= <-]. eexists. split; [ reflexivity | apply format_grouped_strip ].
Qed.

Lemma totals_text_reads_back_witness :
  Streamlit.sales_metric sample_frame
    = Streamlit.Ok {| Streamlit.label := "Total Sales";
                      Streamlit.value_ := VStr "1,250";
                      Streamlit.delta := VStr "-850" |} ∧
  ∃ text : string,
    VStr "1,250" = VStr text ∧
    strip_commas text = pretty (Streamlit.sum (Streamlit.Sales sample_frame)).
Proof.
  assert (Hm : Streamlit.sales_metric sample_frame
               = Streamlit.Ok {| Streamlit.label := "Total Sales";
                                 Streamlit.value_ := VStr "1,250";
                                 Streamlit.delta := VStr "-850" |})
    by (vm_compute; reflexivity).
  split; [ exact Hm | ].
  exact (proj1 (totals_text_reads_back sample_frame _) Hm).
Defined.
